(** * MeanSparse WideResNet / Pre-activation ResNet: a shallow embedding

    Embedding of [robustbench/model_zoo/architectures/Meansparse_wrn_70_16.py].

    The Python file sits on top of a tensor runtime.  Scalar arithmetic of that
    runtime (floating point addition, square root, reductions, ...) is taken as
    an interface, [Scalar]; the shape discipline of the runtime (broadcasting,
    in-place updates, exceptions on shape mismatch) is written out, because the
    control flow of [MeanSparse.forward] depends on it.  Framework layers
    (convolution, batch normalisation, linear, pooling) are an interface,
    [Torch]. *)

From Stdlib Require Import String.
From Stdlib Require Import List ZArith Bool Lia Arith.
Import ListNotations.

Set Implicit Arguments.

Local Open Scope Z_scope.

(** ** Python exceptions and results *)

Inductive exn : Type :=
| RuntimeError
| ValueError (msg : string)
| AssertionError
| TypeError
| UnboundLocalError.

Inductive result (A : Type) : Type :=
| Ok (a : A)
| Raise (e : exn).

Arguments Ok {A} a.
Arguments Raise {A} e.

Definition rbind {A B : Type} (m : result A) (f : A -> result B) : result B :=
  match m with
  | Ok a => f a
  | Raise e => Raise e
  end.

Declare Scope py_scope.
Delimit Scope py_scope with py.

Notation "x <- m ;; k" := (rbind m (fun x => k))
  (at level 61, m at next level, right associativity) : py_scope.

Definition is_ok {A : Type} (r : result A) : bool :=
  match r with Ok _ => true | Raise _ => false end.

(** ** Scalars of the tensor runtime *)

Class Scalar (R : Type) : Type := {
  rzero : R;
  rone : R;
  radd : R -> R -> R;
  rsub : R -> R -> R;
  rmul : R -> R -> R;
  rdiv : R -> R -> R;
  rabs : R -> R;
  rsqrt : R -> R;
  (** [a < b] on scalars *)
  rltb : R -> R -> bool;
  (** [a == 0] on scalars *)
  req0 : R -> bool;
  (** [torch.mean] and [torch.var] of the values reduced into one entry *)
  tmean : list R -> R;
  tvar : list R -> R
}.

(** Facts of the arithmetic that the statements below rely on. *)
Class ScalarLaws (R : Type) `{Scalar R} : Prop := {
  rmul_one_r : forall x : R, rmul x rone = x;
  req0_zero : req0 rzero = true
}.

Arguments ScalarLaws R {_}.

(** ** Four-dimensional tensors, shape (N, C, H, W) *)

Record tensor4 (A : Type) : Type := mkTensor4 {
  dimN : nat;
  dimC : nat;
  dimH : nat;
  dimW : nat;
  elt : nat -> nat -> nat -> nat -> A
}.

Definition shape4 : Type := (nat * nat * nat * nat)%type.

Definition shape {A : Type} (t : tensor4 A) : shape4 :=
  (dimN t, dimC t, dimH t, dimW t).

(** Broadcasting of one dimension: equal sizes, or one of them is 1. *)
Definition bdim (a b : nat) : option nat :=
  if Nat.eqb a b then Some a
  else if Nat.eqb a 1 then Some b
  else if Nat.eqb b 1 then Some a
  else None.

Definition bshape (s t : shape4) : option shape4 :=
  let '(n1, c1, h1, w1) := s in
  let '(n2, c2, h2, w2) := t in
  match bdim n1 n2, bdim c1 c2, bdim h1 h2, bdim w1 w2 with
  | Some n, Some c, Some h, Some w => Some (n, c, h, w)
  | _, _, _, _ => None
  end.

(** Index into a dimension of size [d] seen through broadcasting. *)
Definition bix (d i : nat) : nat := if Nat.eqb d 1 then 0%nat else i.

Definition bget {A : Type} (t : tensor4 A) (n c h w : nat) : A :=
  elt t (bix (dimN t) n) (bix (dimC t) c) (bix (dimH t) h) (bix (dimW t) w).

Definition of_shape {A : Type} (s : shape4) (f : nat -> nat -> nat -> nat -> A)
  : tensor4 A :=
  let '(n, c, h, w) := s in mkTensor4 n c h w f.

(** Unary elementwise operation. *)
Definition tmap {A B : Type} (f : A -> B) (t : tensor4 A) : tensor4 B :=
  mkTensor4 (dimN t) (dimC t) (dimH t) (dimW t)
            (fun n c h w => f (elt t n c h w)).

(** Binary elementwise operation with broadcasting; raises on a mismatch. *)
Definition tmap2 {A B C : Type} (f : A -> B -> C)
           (a : tensor4 A) (b : tensor4 B) : result (tensor4 C) :=
  match bshape (shape a) (shape b) with
  | Some s => Ok (of_shape s (fun n c h w => f (bget a n c h w) (bget b n c h w)))
  | None => Raise RuntimeError
  end.

(** [torch.where(cond, a, b)] *)
Definition torch_where {A : Type}
           (cond : tensor4 bool) (a b : tensor4 A) : result (tensor4 A) :=
  match bshape (shape cond) (shape a) with
  | Some s1 =>
      match bshape s1 (shape b) with
      | Some s =>
          Ok (of_shape s (fun n c h w =>
                if bget cond n c h w then bget a n c h w else bget b n c h w))
      | None => Raise RuntimeError
      end
  | None => Raise RuntimeError
  end.

(** [v.view(1, v.shape[0], 1, 1)] of a one-dimensional tensor *)
Definition view_1C11 {A : Type} (d : A) (v : list A) : tensor4 A :=
  mkTensor4 1 (length v) 1 1 (fun _ c _ _ => nth c v d).

(** The values of channel [c], in row-major order over (N, H, W). *)
Definition channel_values {A : Type} (t : tensor4 A) (c : nat) : list A :=
  flat_map (fun n =>
    flat_map (fun h =>
      map (fun w => elt t n c h w) (seq 0 (dimW t)))
      (seq 0 (dimH t)))
    (seq 0 (dimN t)).

(** A reduction over [dim=(0, 2, 3)]: one entry per channel. *)
Definition reduce_023 {A B : Type} (red : list A -> B) (t : tensor4 A) : list B :=
  map (fun c => red (channel_values t c)) (seq 0 (dimC t)).

(** In-place [self += other] on one-dimensional tensors: [other] must
    broadcast to the shape of [self]. *)
Definition iadd {R : Type} `{Scalar R} (self other : list R) : result (list R) :=
  if Nat.eqb (length other) (length self) then
    Ok (map (fun p => radd (fst p) (snd p)) (combine self other))
  else
    match other with
    | [o] => Ok (map (fun a => radd a o) self)
    | _ => Raise RuntimeError
    end.

(** [torch.ones_like(t)] *)
Definition ones_like {R : Type} `{Scalar R} (t : tensor4 R) : tensor4 R :=
  mkTensor4 (dimN t) (dimC t) (dimH t) (dimW t) (fun _ _ _ _ => rone).

(** ** class MeanSparse (source lines 85-127) *)

Module MeanSparse.
Section WithScalar.
Context {R : Type} `{Scalar R}.

(** The registered buffers, and the two plain attributes [bias] and [crop]. *)
Record t : Type := mk {
  running_mean : list R;
  running_var : list R;
  threshold : R;
  flag_update_statistics : Z;
  batch_num : R;
  bias : option (tensor4 R);
  crop : option (tensor4 R)
}.

Definition set_running_mean (v : list R) (self : t) : t :=
  mk v (running_var self) (threshold self) (flag_update_statistics self)
     (batch_num self) (bias self) (crop self).

Definition set_running_var (v : list R) (self : t) : t :=
  mk (running_mean self) v (threshold self) (flag_update_statistics self)
     (batch_num self) (bias self) (crop self).

(** [torch.zeros(in_planes)] raises on a negative size. *)
Definition torch_zeros (n : Z) : result (list R) :=
  if n <? 0 then Raise RuntimeError else Ok (repeat rzero (Z.to_nat n)).

Definition __init__ (in_planes : Z) : result t :=
  (rm <- torch_zeros in_planes ;;
   rv <- torch_zeros in_planes ;;
   Ok (mk rm rv rzero 0 rzero None None))%py.

(** Lines 102-104: the calibration update.  The state that is returned is
    the one the exception, if any, leaves behind. *)
Definition update_statistics (self : t) (input : tensor4 R) : t * result unit :=
  if Z.eqb (flag_update_statistics self) 0 then (self, Ok tt)
  else
    match iadd (running_mean self)
               (map (fun m => rdiv m (batch_num self)) (reduce_023 tmean input)) with
    | Raise e => (self, Raise e)
    | Ok rm =>
        let self := set_running_mean rm self in
        match iadd (running_var self)
                   (map (fun v => rdiv v (batch_num self)) (reduce_023 tvar input)) with
        | Raise e => (self, Raise e)
        | Ok rv => (set_running_var rv self, Ok tt)
        end
    end.

(** Lines 106-127: sparsification with the buffers as they now stand. *)
Definition sparsify (self : t) (input : tensor4 R) : result (tensor4 R) :=
  (let bias := view_1C11 rzero (running_mean self) in
   let crop := tmap (rmul (threshold self))
                    (view_1C11 rzero (map rsqrt (running_var self))) in
   diff <- tmap2 rsub input bias ;;
   if req0 (threshold self) then Ok input
   else
     cond <- tmap2 rltb (tmap rabs diff) crop ;;
     filled <- tmap2 rmul bias (ones_like input) ;;
     torch_where cond filled input)%py.

Definition forward (self : t) (input : tensor4 R) : t * result (tensor4 R) :=
  match update_statistics self input with
  | (self, Raise e) => (self, Raise e)
  | (self, Ok _) => (self, sparsify self input)
  end.

End WithScalar.
Arguments t R : clear implicits.
End MeanSparse.

(** ** What the sparsification computes, position by position *)

Section Sparsified.
Context {R : Type} {SR : Scalar R}.

(** The test [|x - running_mean| < threshold * sqrt(running_var)] at
    position (n, c, h, w); channels are read through broadcasting. *)
Definition sparsify_test (self : MeanSparse.t R) (x : tensor4 R)
           (n c h w : nat) : bool :=
  let xv := elt x n (bix (dimC x) c) h w in
  let m := nth (bix (length (MeanSparse.running_mean self)) c)
               (MeanSparse.running_mean self) rzero in
  let v := nth (bix (length (MeanSparse.running_var self)) c)
               (MeanSparse.running_var self) rzero in
  rltb (rabs (rsub xv m)) (rmul (MeanSparse.threshold self) (rsqrt v)).

(** The running mean of the channel where the test holds, the input value
    elsewhere. *)
Definition sparsified_at (self : MeanSparse.t R) (x : tensor4 R)
           (n c h w : nat) : R :=
  if sparsify_test self x n c h w
  then nth (bix (length (MeanSparse.running_mean self)) c)
           (MeanSparse.running_mean self) rzero
  else elt x n (bix (dimC x) c) h w.

(** Two tensors are the same tensor: same shape, same entries. *)
Definition tensor_eq {A : Type} (a b : tensor4 A) : Prop :=
  shape a = shape b /\
  forall n c h w,
    (n < dimN a)%nat -> (c < dimC a)%nat ->
    (h < dimH a)%nat -> (w < dimW a)%nat ->
    elt a n c h w = elt b n c h w.

(** Two results are the same: the same exception, or the same tensor. *)
Definition result_eq {A : Type} (r1 r2 : result (tensor4 A)) : Prop :=
  match r1, r2 with
  | Ok a, Ok b => tensor_eq a b
  | Raise e1, Raise e2 => e1 = e2
  | _, _ => False
  end.

End Sparsified.

(** ** The custom autograd function, source lines 33-56 (commented out there) *)

Module MeanSparseFunction2D.
Section WithScalar.
Context {R : Type} {SR : Scalar R}.

Definition forward (input bias crop : tensor4 R) (threshold : R)
  : result (tensor4 R) :=
  if req0 threshold then Ok input
  else
    (diff <- tmap2 rsub input bias ;;
     cond <- tmap2 rltb (tmap rabs diff) crop ;;
     torch_where cond bias input)%py.

(** [return grad_input, None, None, None] *)
Definition backward (grad_output : tensor4 R)
  : tensor4 R * option (tensor4 R) * option (tensor4 R) * option R :=
  let grad_input := grad_output in
  (grad_input, None, None, None).

End WithScalar.
End MeanSparseFunction2D.

(** ** Functional operations of the runtime used by the networks *)

(** [F.pad(v, (l, r, t, b))]: zero padding of the last two dimensions. *)
Definition F_pad {R : Type} `{Scalar R} (v : tensor4 R)
           (p : nat * nat * nat * nat) : tensor4 R :=
  let '(l, r, t, b) := p in
  mkTensor4 (dimN v) (dimC v) (t + dimH v + b) (l + dimW v + r)
    (fun n c h w =>
       if (Nat.leb t h && Nat.ltb h (t + dimH v) &&
           Nat.leb l w && Nat.ltb w (l + dimW v))%bool
       then elt v n c (h - t) (w - l)
       else rzero).

(** [torch.add(a, b)] *)
Definition torch_add {R : Type} `{Scalar R} (a b : tensor4 R)
  : result (tensor4 R) :=
  tmap2 radd a b.

(** [torch.tensor(v).view(n, 1, 1)]: the view exists when [n] is the number
    of entries (or -1 on a non-empty tensor).  A float in place of a tuple is
    the one-entry case. *)
Definition view_C11 {R : Type} (v : list R) (n : Z) : result (list R) :=
  if (n =? Z.of_nat (length v)) ||
     ((n =? -1) && negb (Nat.eqb (length v) 0))
  then Ok v else Raise RuntimeError.

(** Python's [c and a or b] on a boolean and two integers. *)
Definition and_or (c : bool) (a b : Z) : Z :=
  if c then (if a =? 0 then b else a) else b.

(** ** Forward passes: module state, log of submodule calls, result *)

Inductive cls : Type :=
| BatchNorm2dC | MeanSparseC | ActivationC | Conv2dC | LinearC.

(** [Call attr k]: the submodule held in attribute [attr], of class [k], was
    called. *)
Record event : Type := Call { attr : string; kind : cls }.

Definition cls_eqb (a b : cls) : bool :=
  match a, b with
  | BatchNorm2dC, BatchNorm2dC | MeanSparseC, MeanSparseC
  | ActivationC, ActivationC | Conv2dC, Conv2dC | LinearC, LinearC => true
  | _, _ => false
  end.

(** Number of calls to modules of class [k] in a log. *)
Definition calls_of (k : cls) (l : list event) : nat :=
  length (filter (fun e => cls_eqb (kind e) k) l).

Definition Fwd (S A : Type) : Type := S -> S * list event * result A.

Definition fret {S A : Type} (a : A) : Fwd S A := fun s => (s, [], Ok a).

Definition fraise {S A : Type} (e : exn) : Fwd S A := fun s => (s, [], Raise e).

Definition flift {S A : Type} (r : result A) : Fwd S A := fun s => (s, [], r).

Definition fbind {S A B : Type} (m : Fwd S A) (f : A -> Fwd S B) : Fwd S B :=
  fun s =>
    match m s with
    | (s1, l1, Ok a) => let '(s2, l2, r) := f a s1 in (s2, l1 ++ l2, r)
    | (s1, l1, Raise e) => (s1, l1, Raise e)
    end.

Definition fget {S : Type} : Fwd S S := fun s => (s, [], Ok s).

Declare Scope fwd_scope.
Delimit Scope fwd_scope with fwd.

Notation "x <- m ;; k" := (fbind m (fun x => k))
  (at level 61, m at next level, right associativity) : fwd_scope.

(** [self.attr(x)] for a submodule whose forward updates its own state. *)
Definition call {S M A B : Type} (name : string) (k : cls)
           (get : S -> M) (set : M -> S -> S)
           (fwd : M -> A -> M * result B) (x : A) : Fwd S B :=
  fun s => let '(m, r) := fwd (get s) x in (set m s, [Call name k], r).

(** [self.attr(x)] for a submodule whose forward reads its state only. *)
Definition call_ro {S M A B : Type} (name : string) (k : cls)
           (get : S -> M) (fwd : M -> A -> result B) (x : A) : Fwd S B :=
  fun s => (s, [Call name k], fwd (get s) x).

(** A composite child module runs on its own part of the state. *)
Definition zoom {S M A : Type} (get : S -> M) (set : M -> S -> S)
           (m : Fwd M A) : Fwd S A :=
  fun s => let '(c, l, r) := m (get s) in (set c s, l, r).

(** [nn.Sequential]: the children are called in order, each on the output of
    the one before. *)
Fixpoint sequential {M A : Type} (fwd : A -> Fwd M A) (x : A) (ms : list M)
  : list M * list event * result A :=
  match ms with
  | [] => ([], [], Ok x)
  | m :: rest =>
      match fwd x m with
      | (m1, l1, Ok y) =>
          let '(rest1, l2, r) := sequential fwd y rest in
          (m1 :: rest1, l1 ++ l2, r)
      | (m1, l1, Raise e) => (m1 :: rest, l1, Raise e)
      end
  end.

(** Constructors called in a row, stopping at the first that raises. *)
Fixpoint mapM {A B : Type} (f : A -> result B) (l : list A) : result (list B) :=
  match l with
  | [] => Ok []
  | a :: rest => (b <- f a ;; bs <- mapM f rest ;; Ok (b :: bs))%py
  end.

(** ** Layers of the framework *)

Class Torch (R : Type) : Type := {
  (** [nn.BatchNorm2d(num_features)] *)
  BatchNorm2d : Type;
  BatchNorm2d_new : Z -> result BatchNorm2d;
  BatchNorm2d_forward : BatchNorm2d -> tensor4 R -> BatchNorm2d * result (tensor4 R);
  (** [nn.Conv2d(in_channels, out_channels, kernel_size, stride, padding, bias)] *)
  Conv2d : Type;
  Conv2d_new : Z -> Z -> Z -> Z -> Z -> bool -> result Conv2d;
  Conv2d_forward : Conv2d -> tensor4 R -> result (tensor4 R);
  (** [activation_fn], a module class, and its instances *)
  ActivationFn : Type;
  Activation : Type;
  Activation_new : ActivationFn -> result Activation;
  Activation_forward : Activation -> tensor4 R -> result (tensor4 R);
  (** [nn.Linear(in_features, out_features)] on two-dimensional tensors *)
  Tensor2 : Type;
  Linear : Type;
  Linear_new : Z -> Z -> result Linear;
  Linear_forward : Linear -> Tensor2 -> result Tensor2;
  (** [F.avg_pool2d(t, k)] and [t.view(-1, n)] *)
  avg_pool2d : tensor4 R -> Z -> result (tensor4 R);
  view_rows : tensor4 R -> Z -> result Tensor2
}.

(** ** class _Block (source lines 152-211) *)

Module _Block.
Section WithTorch.
Context {R : Type} {SR : Scalar R} {T : Torch R}.

Record t : Type := mk {
  batchnorm_0 : BatchNorm2d;
  meansparse_0 : MeanSparse.t R;
  relu_0 : Activation;
  conv_0 : Conv2d;
  batchnorm_1 : BatchNorm2d;
  meansparse_1 : MeanSparse.t R;
  relu_1 : Activation;
  conv_1 : Conv2d;
  has_shortcut : bool;
  shortcut : option Conv2d;
  _stride : Z;
  meansparse_2 : MeanSparse.t R
}.

Definition set_batchnorm_0 (v : BatchNorm2d) (b : t) : t :=
  mk v (meansparse_0 b) (relu_0 b) (conv_0 b) (batchnorm_1 b) (meansparse_1 b)
     (relu_1 b) (conv_1 b) (has_shortcut b) (shortcut b) (_stride b)
     (meansparse_2 b).

Definition set_meansparse_0 (v : MeanSparse.t R) (b : t) : t :=
  mk (batchnorm_0 b) v (relu_0 b) (conv_0 b) (batchnorm_1 b) (meansparse_1 b)
     (relu_1 b) (conv_1 b) (has_shortcut b) (shortcut b) (_stride b)
     (meansparse_2 b).

Definition set_batchnorm_1 (v : BatchNorm2d) (b : t) : t :=
  mk (batchnorm_0 b) (meansparse_0 b) (relu_0 b) (conv_0 b) v (meansparse_1 b)
     (relu_1 b) (conv_1 b) (has_shortcut b) (shortcut b) (_stride b)
     (meansparse_2 b).

Definition set_meansparse_1 (v : MeanSparse.t R) (b : t) : t :=
  mk (batchnorm_0 b) (meansparse_0 b) (relu_0 b) (conv_0 b) (batchnorm_1 b) v
     (relu_1 b) (conv_1 b) (has_shortcut b) (shortcut b) (_stride b)
     (meansparse_2 b).

Definition set_meansparse_2 (v : MeanSparse.t R) (b : t) : t :=
  mk (batchnorm_0 b) (meansparse_0 b) (relu_0 b) (conv_0 b) (batchnorm_1 b)
     (meansparse_1 b) (relu_1 b) (conv_1 b) (has_shortcut b) (shortcut b)
     (_stride b) v.

Definition __init__ (in_planes out_planes stride : Z)
           (activation_fn : ActivationFn) : result t :=
  (batchnorm_0 <- BatchNorm2d_new in_planes ;;
   meansparse_0 <- MeanSparse.__init__ in_planes ;;
   relu_0 <- Activation_new activation_fn ;;
   conv_0 <- Conv2d_new in_planes out_planes 3 stride 0 false ;;
   batchnorm_1 <- BatchNorm2d_new out_planes ;;
   meansparse_1 <- MeanSparse.__init__ out_planes ;;
   relu_1 <- Activation_new activation_fn ;;
   conv_1 <- Conv2d_new out_planes out_planes 3 1 1 false ;;
   let has_shortcut := negb (in_planes =? out_planes) in
   shortcut <- (if has_shortcut
                then c <- Conv2d_new in_planes out_planes 1 stride 0 false ;;
                     Ok (Some c)
                else Ok None) ;;
   meansparse_2 <- MeanSparse.__init__ out_planes ;;
   Ok (mk batchnorm_0 meansparse_0 relu_0 conv_0 batchnorm_1 meansparse_1
          relu_1 conv_1 has_shortcut shortcut stride meansparse_2))%py.

(** Calling the attribute [shortcut]; [None] is not callable. *)
Definition shortcut_forward (m : option Conv2d) (x : tensor4 R)
  : result (tensor4 R) :=
  match m with
  | Some c => Conv2d_forward c x
  | None => Raise TypeError
  end.

(** [self.relu_0(self.meansparse_0(self.batchnorm_0(x)))] *)
Definition preactivate (x : tensor4 R) : Fwd t (tensor4 R) :=
  (a <- call "batchnorm_0" BatchNorm2dC batchnorm_0 set_batchnorm_0
             BatchNorm2d_forward x ;;
   b <- call "meansparse_0" MeanSparseC meansparse_0 set_meansparse_0
             MeanSparse.forward a ;;
   call_ro "relu_0" ActivationC relu_0 Activation_forward b)%fwd.

(** Lines 200-205. *)
Definition pad_for_stride (self : t) (v : tensor4 R) : result (tensor4 R) :=
  if _stride self =? 1 then Ok (F_pad v (1, 1, 1, 1)%nat)
  else if _stride self =? 2 then Ok (F_pad v (0, 1, 0, 1)%nat)
  else Raise (ValueError "Unsupported `stride`.").

(** Lines 206-211, on the locals [x] and [v]. *)
Definition convolve (x v : tensor4 R) : Fwd t (tensor4 R) :=
  (out <- call_ro "conv_0" Conv2dC conv_0 Conv2d_forward v ;;
   out <- call "batchnorm_1" BatchNorm2dC batchnorm_1 set_batchnorm_1
               BatchNorm2d_forward out ;;
   out <- call "meansparse_1" MeanSparseC meansparse_1 set_meansparse_1
               MeanSparse.forward out ;;
   out <- call_ro "relu_1" ActivationC relu_1 Activation_forward out ;;
   out <- call_ro "conv_1" Conv2dC conv_1 Conv2d_forward out ;;
   self <- fget ;;
   sc <- (if has_shortcut self
          then call_ro "shortcut" Conv2dC shortcut shortcut_forward x
          else fret x) ;;
   out <- flift (torch_add sc out) ;;
   call "meansparse_2" MeanSparseC meansparse_2 set_meansparse_2
        MeanSparse.forward out)%fwd.

(** Lines 194-211.  The local [out] is bound in the [else] branch of lines
    195-198 only; [None] stands for the unbound name. *)
Definition forward (x : tensor4 R) : Fwd t (tensor4 R) :=
  (self <- fget ;;
   locals <- (if has_shortcut self
              then x <- preactivate x ;; fret (x, None)
              else out <- preactivate x ;; fret (x, Some out)) ;;
   let '(x, out) := locals in
   self <- fget ;;
   v <- (if has_shortcut self then fret x
         else match out with
              | Some out => fret out
              | None => fraise UnboundLocalError
              end) ;;
   v <- flift (pad_for_stride self v) ;;
   convolve x v)%fwd.

(** Running [m] from the state and log that an earlier part left. *)
Definition resume {A : Type} (s : t) (l : list event) (m : Fwd t A)
  : t * list event * result A :=
  let '(s1, l1, r) := m s in (s1, l ++ l1, r).

End WithTorch.
Arguments t R {T}.
End _Block.

(** ** class _BlockGroup (source lines 214-234) *)

Module _BlockGroup.
Section WithTorch.
Context {R : Type} {SR : Scalar R} {T : Torch R}.

(** [block] is the [nn.Sequential] of the blocks. *)
Record t : Type := mk { block : list (_Block.t R) }.

Definition __init__ (num_blocks in_planes out_planes stride : Z)
           (activation_fn : ActivationFn) : result t :=
  (block <- mapM (fun i : nat =>
                    _Block.__init__
                      (and_or (Nat.eqb i 0) in_planes out_planes)
                      out_planes
                      (and_or (Nat.eqb i 0) stride 1)
                      activation_fn)
                 (seq 0 (Z.to_nat num_blocks)) ;;
   Ok (mk block))%py.

Definition forward (x : tensor4 R) : Fwd t (tensor4 R) :=
  zoom block (fun b _ => mk b) (sequential _Block.forward x).

End WithTorch.
Arguments t R {T}.
End _BlockGroup.

(** ** class DMWideResNet (source lines 237-297) *)

Module DMWideResNet.
Section WithTorch.
Context {R : Type} {SR : Scalar R} {T : Torch R}.

Record t : Type := mk {
  mean : list R;
  std : list R;
  padding : Z;
  init_conv : Conv2d;
  layer : list (_BlockGroup.t R);
  batchnorm : BatchNorm2d;
  meansparse_end : MeanSparse.t R;
  relu : Activation;
  logits : Linear;
  num_channels : Z
}.

Definition set_layer (v : list (_BlockGroup.t R)) (m : t) : t :=
  mk (mean m) (std m) (padding m) (init_conv m) v (batchnorm m)
     (meansparse_end m) (relu m) (logits m) (num_channels m).

Definition set_batchnorm (v : BatchNorm2d) (m : t) : t :=
  mk (mean m) (std m) (padding m) (init_conv m) (layer m) v
     (meansparse_end m) (relu m) (logits m) (num_channels m).

Definition set_meansparse_end (v : MeanSparse.t R) (m : t) : t :=
  mk (mean m) (std m) (padding m) (init_conv m) (layer m) (batchnorm m)
     v (relu m) (logits m) (num_channels m).

Definition __init__ (num_classes depth width : Z)
           (activation_fn : ActivationFn) (mean std : list R)
           (padding num_input_channels : Z) : result t :=
  (mean <- view_C11 mean num_input_channels ;;
   std <- view_C11 std num_input_channels ;;
   let num_channels := (16, 16 * width, 32 * width, 64 * width) in
   let '(c0, c1, c2, c3) := num_channels in
   _ <- (if (depth - 4) mod 6 =? 0 then Ok tt else Raise AssertionError) ;;
   let num_blocks := (depth - 4) / 6 in
   init_conv <- Conv2d_new num_input_channels c0 3 1 1 false ;;
   g0 <- _BlockGroup.__init__ num_blocks c0 c1 1 activation_fn ;;
   g1 <- _BlockGroup.__init__ num_blocks c1 c2 2 activation_fn ;;
   g2 <- _BlockGroup.__init__ num_blocks c2 c3 2 activation_fn ;;
   batchnorm <- BatchNorm2d_new c3 ;;
   meansparse_end <- MeanSparse.__init__ c3 ;;
   relu <- Activation_new activation_fn ;;
   logits <- Linear_new c3 num_classes ;;
   Ok (mk mean std padding init_conv [g0; g1; g2] batchnorm meansparse_end
          relu logits c3))%py.

Definition forward (x : tensor4 R) : Fwd t Tensor2 :=
  (self <- fget ;;
   let x := if padding self >? 0
            then let p := Z.to_nat (padding self) in F_pad x (p, p, p, p)
            else x in
   out <- flift (d <- tmap2 rsub x (view_1C11 rzero (mean self)) ;;
                 tmap2 rdiv d (view_1C11 rzero (std self)))%py ;;
   out <- call_ro "init_conv" Conv2dC init_conv Conv2d_forward out ;;
   out <- zoom layer set_layer (sequential _BlockGroup.forward out) ;;
   out <- call "batchnorm" BatchNorm2dC batchnorm set_batchnorm
               BatchNorm2d_forward out ;;
   out <- call "meansparse_end" MeanSparseC meansparse_end set_meansparse_end
               MeanSparse.forward out ;;
   out <- call_ro "relu" ActivationC relu Activation_forward out ;;
   out <- flift (avg_pool2d out 8) ;;
   out <- flift (view_rows out (num_channels self)) ;;
   call_ro "logits" LinearC logits Linear_forward out)%fwd.

End WithTorch.
Arguments t R {T}.
End DMWideResNet.

(** ** class _PreActBlock (source lines 300-335) *)

Module _PreActBlock.
Section WithTorch.
Context {R : Type} {SR : Scalar R} {T : Torch R}.

Record t : Type := mk {
  _stride : Z;
  batchnorm_0 : BatchNorm2d;
  relu_0 : Activation;
  conv_2d_1 : Conv2d;
  batchnorm_1 : BatchNorm2d;
  relu_1 : Activation;
  conv_2d_2 : Conv2d;
  has_shortcut : bool;
  shortcut : option Conv2d
}.

Definition set_batchnorm_0 (v : BatchNorm2d) (b : t) : t :=
  mk (_stride b) v (relu_0 b) (conv_2d_1 b) (batchnorm_1 b) (relu_1 b)
     (conv_2d_2 b) (has_shortcut b) (shortcut b).

Definition set_batchnorm_1 (v : BatchNorm2d) (b : t) : t :=
  mk (_stride b) (batchnorm_0 b) (relu_0 b) (conv_2d_1 b) v (relu_1 b)
     (conv_2d_2 b) (has_shortcut b) (shortcut b).

Definition __init__ (in_planes out_planes stride : Z)
           (activation_fn : ActivationFn) : result t :=
  (batchnorm_0 <- BatchNorm2d_new in_planes ;;
   relu_0 <- Activation_new activation_fn ;;
   conv_2d_1 <- Conv2d_new in_planes out_planes 3 stride 0 false ;;
   batchnorm_1 <- BatchNorm2d_new out_planes ;;
   relu_1 <- Activation_new activation_fn ;;
   conv_2d_2 <- Conv2d_new out_planes out_planes 3 1 1 false ;;
   let has_shortcut := negb (stride =? 1) || negb (in_planes =? out_planes) in
   shortcut <- (if has_shortcut
                then c <- Conv2d_new in_planes out_planes 3 stride 0 false ;;
                     Ok (Some c)
                else Ok None) ;;
   Ok (mk stride batchnorm_0 relu_0 conv_2d_1 batchnorm_1 relu_1 conv_2d_2
          has_shortcut shortcut))%py.

Definition _pad (self : t) (x : tensor4 R) : result (tensor4 R) :=
  if _stride self =? 1 then Ok (F_pad x (1, 1, 1, 1)%nat)
  else if _stride self =? 2 then Ok (F_pad x (0, 1, 0, 1)%nat)
  else Raise (ValueError "Unsupported `stride`.").

Definition shortcut_forward (m : option Conv2d) (x : tensor4 R)
  : result (tensor4 R) :=
  match m with
  | Some c => Conv2d_forward c x
  | None => Raise TypeError
  end.

Definition forward (x : tensor4 R) : Fwd t (tensor4 R) :=
  (self <- fget ;;
   out <- call "batchnorm_0" BatchNorm2dC batchnorm_0 set_batchnorm_0
               BatchNorm2d_forward x ;;
   out <- call_ro "relu_0" ActivationC relu_0 Activation_forward out ;;
   shortcut <- (if has_shortcut self
                then p <- flift (_pad self x) ;;
                     call_ro "shortcut" Conv2dC shortcut shortcut_forward p
                else fret x) ;;
   p <- flift (_pad self out) ;;
   out <- call_ro "conv_2d_1" Conv2dC conv_2d_1 Conv2d_forward p ;;
   out <- call "batchnorm_1" BatchNorm2dC batchnorm_1 set_batchnorm_1
               BatchNorm2d_forward out ;;
   out <- call_ro "relu_1" ActivationC relu_1 Activation_forward out ;;
   out <- call_ro "conv_2d_2" Conv2dC conv_2d_2 Conv2d_forward out ;;
   flift (torch_add out shortcut))%fwd.

End WithTorch.
Arguments t R {T}.
End _PreActBlock.

(** ** class DMPreActResNet (source lines 338-388) *)

Module DMPreActResNet.
Section WithTorch.
Context {R : Type} {SR : Scalar R} {T : Torch R}.

Record t : Type := mk {
  mean : list R;
  std : list R;
  mean_cuda : option (list R);
  std_cuda : option (list R);
  padding : Z;
  conv_2d : Conv2d;
  layer_0 : list (_PreActBlock.t R);
  layer_1 : list (_PreActBlock.t R);
  layer_2 : list (_PreActBlock.t R);
  layer_3 : list (_PreActBlock.t R);
  batchnorm : BatchNorm2d;
  relu : Activation;
  logits : Linear
}.

Definition _make_layer (in_planes out_planes num_blocks stride : Z)
           (activation_fn : ActivationFn) : result (list (_PreActBlock.t R)) :=
  let strides := stride :: repeat 1 (Z.to_nat (num_blocks - 1)) in
  mapM (fun p : nat * Z =>
          let '(i, stride) := p in
          _PreActBlock.__init__
            (and_or (Nat.eqb i 0) in_planes out_planes)
            out_planes
            stride
            activation_fn)
       (combine (seq 0 (length strides)) strides).

(** The block counts per depth, lines 365-370. *)
Definition num_blocks_of (depth : Z) : result (Z * Z * Z * Z) :=
  if depth =? 18 then Ok (2, 2, 2, 2)
  else if depth =? 34 then Ok (3, 4, 6, 3)
  else Raise (ValueError "Unsupported `depth`.").

Definition __init__ (num_classes depth width : Z)
           (activation_fn : ActivationFn) (mean std : list R)
           (padding num_input_channels : Z) (use_cuda : bool) : result t :=
  (_ <- (if negb (width =? 0)
         then Raise (ValueError "Unsupported `width`.") else Ok tt) ;;
   mean <- view_C11 mean num_input_channels ;;
   std <- view_C11 std num_input_channels ;;
   conv_2d <- Conv2d_new num_input_channels 64 3 1 1 false ;;
   num_blocks <- num_blocks_of depth ;;
   let '(n0, n1, n2, n3) := num_blocks in
   layer_0 <- _make_layer 64 64 n0 1 activation_fn ;;
   layer_1 <- _make_layer 64 128 n1 2 activation_fn ;;
   layer_2 <- _make_layer 128 256 n2 2 activation_fn ;;
   layer_3 <- _make_layer 256 512 n3 2 activation_fn ;;
   batchnorm <- BatchNorm2d_new 512 ;;
   relu <- Activation_new activation_fn ;;
   logits <- Linear_new 512 num_classes ;;
   Ok (mk mean std None None padding conv_2d layer_0 layer_1 layer_2 layer_3
          batchnorm relu logits))%py.

End WithTorch.
Arguments t R {T}.
End DMPreActResNet.

(** ** The MeanSparse layers of a module, in the order they are called *)

Section Layers.
Context {R : Type} {SR : Scalar R} {T : Torch R}.

Definition block_meansparse (b : _Block.t R) : list (MeanSparse.t R) :=
  [_Block.meansparse_0 b; _Block.meansparse_1 b; _Block.meansparse_2 b].

Definition group_meansparse (g : _BlockGroup.t R) : list (MeanSparse.t R) :=
  flat_map block_meansparse (_BlockGroup.block g).

Definition wrn_meansparse (m : DMWideResNet.t R) : list (MeanSparse.t R) :=
  flat_map group_meansparse (DMWideResNet.layer m)
  ++ [DMWideResNet.meansparse_end m].

(** The number of blocks of the network. *)
Definition wrn_blocks (m : DMWideResNet.t R) : nat :=
  length (flat_map _BlockGroup.block (DMWideResNet.layer m)).

(** The state [MeanSparse.__init__] builds, for some width. *)
Definition is_fresh (ms : MeanSparse.t R) : Prop :=
  exists n : nat,
    ms = MeanSparse.mk (repeat rzero n) (repeat rzero n) rzero 0 rzero None None.

(** A completed forward pass of a block, step by step, in terms of the
    layers alone: the block input is batch-normalised, sparsified and
    activated; this pre-activation is padded by the stride and goes through
    [conv_0], [batchnorm_1], [meansparse_1], [relu_1] and [conv_1]; the
    residual is the shortcut convolution of the pre-activation when the
    block has a shortcut, and the block input itself otherwise; their sum
    goes through [meansparse_2], whose output is the result. *)
Definition block_steps (b b' : _Block.t R) (x out : tensor4 R) : Prop :=
  exists (bn0 : BatchNorm2d) (a : tensor4 R) (ms0 : MeanSparse.t R)
         (p pre v c0 : tensor4 R)
         (bn1 : BatchNorm2d) (a1 : tensor4 R) (ms1 : MeanSparse.t R)
         (q r1 c1 residual sum : tensor4 R) (ms2 : MeanSparse.t R),
    BatchNorm2d_forward (_Block.batchnorm_0 b) x = (bn0, Ok a) /\
    MeanSparse.forward (_Block.meansparse_0 b) a = (ms0, Ok p) /\
    Activation_forward (_Block.relu_0 b) p = Ok pre /\
    (_Block._stride b = 1 /\ v = F_pad pre (1, 1, 1, 1)%nat \/
     _Block._stride b = 2 /\ v = F_pad pre (0, 1, 0, 1)%nat) /\
    Conv2d_forward (_Block.conv_0 b) v = Ok c0 /\
    BatchNorm2d_forward (_Block.batchnorm_1 b) c0 = (bn1, Ok a1) /\
    MeanSparse.forward (_Block.meansparse_1 b) a1 = (ms1, Ok q) /\
    Activation_forward (_Block.relu_1 b) q = Ok r1 /\
    Conv2d_forward (_Block.conv_1 b) r1 = Ok c1 /\
    (if _Block.has_shortcut b
     then exists sc, _Block.shortcut b = Some sc /\
                     Conv2d_forward sc pre = Ok residual
     else residual = x) /\
    tmap2 radd residual c1 = Ok sum /\
    MeanSparse.forward (_Block.meansparse_2 b) sum = (ms2, Ok out) /\
    b' = _Block.mk bn0 ms0 (_Block.relu_0 b) (_Block.conv_0 b)
                   bn1 ms1 (_Block.relu_1 b) (_Block.conv_1 b)
                   (_Block.has_shortcut b) (_Block.shortcut b)
                   (_Block._stride b) ms2.

(** The calibration flag of a MeanSparse layer is off. *)
Definition calibration_off (ms : MeanSparse.t R) : Prop :=
  MeanSparse.flag_update_statistics ms = 0.

(** In a block that says it has a shortcut, there is one to call. *)
Definition shortcut_present (b : _Block.t R) : Prop :=
  _Block.has_shortcut b = true -> _Block.shortcut b <> None.

End Layers.

(** ** DMPreActResNet.forward (source lines 390-402)

    [view_flat] is [out.view(out.size(0), -1)]. *)

Section PreActForward.
Context {R : Type} {SR : Scalar R} {T : Torch R}.
Variable view_flat : tensor4 R -> result Tensor2.

Definition set_layer_0 (v : list (_PreActBlock.t R)) (m : DMPreActResNet.t R)
  : DMPreActResNet.t R :=
  DMPreActResNet.mk
    (DMPreActResNet.mean m) (DMPreActResNet.std m)
    (DMPreActResNet.mean_cuda m) (DMPreActResNet.std_cuda m)
    (DMPreActResNet.padding m) (DMPreActResNet.conv_2d m)
    v (DMPreActResNet.layer_1 m) (DMPreActResNet.layer_2 m)
    (DMPreActResNet.layer_3 m) (DMPreActResNet.batchnorm m)
    (DMPreActResNet.relu m) (DMPreActResNet.logits m).

Definition set_layer_1 (v : list (_PreActBlock.t R)) (m : DMPreActResNet.t R)
  : DMPreActResNet.t R :=
  DMPreActResNet.mk
    (DMPreActResNet.mean m) (DMPreActResNet.std m)
    (DMPreActResNet.mean_cuda m) (DMPreActResNet.std_cuda m)
    (DMPreActResNet.padding m) (DMPreActResNet.conv_2d m)
    (DMPreActResNet.layer_0 m) v (DMPreActResNet.layer_2 m)
    (DMPreActResNet.layer_3 m) (DMPreActResNet.batchnorm m)
    (DMPreActResNet.relu m) (DMPreActResNet.logits m).

Definition set_layer_2 (v : list (_PreActBlock.t R)) (m : DMPreActResNet.t R)
  : DMPreActResNet.t R :=
  DMPreActResNet.mk
    (DMPreActResNet.mean m) (DMPreActResNet.std m)
    (DMPreActResNet.mean_cuda m) (DMPreActResNet.std_cuda m)
    (DMPreActResNet.padding m) (DMPreActResNet.conv_2d m)
    (DMPreActResNet.layer_0 m) (DMPreActResNet.layer_1 m) v
    (DMPreActResNet.layer_3 m) (DMPreActResNet.batchnorm m)
    (DMPreActResNet.relu m) (DMPreActResNet.logits m).

Definition set_layer_3 (v : list (_PreActBlock.t R)) (m : DMPreActResNet.t R)
  : DMPreActResNet.t R :=
  DMPreActResNet.mk
    (DMPreActResNet.mean m) (DMPreActResNet.std m)
    (DMPreActResNet.mean_cuda m) (DMPreActResNet.std_cuda m)
    (DMPreActResNet.padding m) (DMPreActResNet.conv_2d m)
    (DMPreActResNet.layer_0 m) (DMPreActResNet.layer_1 m)
    (DMPreActResNet.layer_2 m) v (DMPreActResNet.batchnorm m)
    (DMPreActResNet.relu m) (DMPreActResNet.logits m).

Definition set_preact_batchnorm (v : BatchNorm2d) (m : DMPreActResNet.t R)
  : DMPreActResNet.t R :=
  DMPreActResNet.mk
    (DMPreActResNet.mean m) (DMPreActResNet.std m)
    (DMPreActResNet.mean_cuda m) (DMPreActResNet.std_cuda m)
    (DMPreActResNet.padding m) (DMPreActResNet.conv_2d m)
    (DMPreActResNet.layer_0 m) (DMPreActResNet.layer_1 m)
    (DMPreActResNet.layer_2 m) (DMPreActResNet.layer_3 m) v
    (DMPreActResNet.relu m) (DMPreActResNet.logits m).

Definition DMPreActResNet_forward (x : tensor4 R)
  : Fwd (DMPreActResNet.t R) Tensor2 :=
  (self <- fget ;;
   let x := if DMPreActResNet.padding self >? 0
            then let p := Z.to_nat (DMPreActResNet.padding self) in
                 F_pad x (p, p, p, p)
            else x in
   out <- flift (d <- tmap2 rsub x (view_1C11 rzero (DMPreActResNet.mean self)) ;;
                 tmap2 rdiv d (view_1C11 rzero (DMPreActResNet.std self)))%py ;;
   out <- call_ro "conv_2d" Conv2dC DMPreActResNet.conv_2d Conv2d_forward out ;;
   out <- zoom DMPreActResNet.layer_0 set_layer_0
               (sequential _PreActBlock.forward out) ;;
   out <- zoom DMPreActResNet.layer_1 set_layer_1
               (sequential _PreActBlock.forward out) ;;
   out <- zoom DMPreActResNet.layer_2 set_layer_2
               (sequential _PreActBlock.forward out) ;;
   out <- zoom DMPreActResNet.layer_3 set_layer_3
               (sequential _PreActBlock.forward out) ;;
   out <- call "batchnorm" BatchNorm2dC DMPreActResNet.batchnorm
               set_preact_batchnorm BatchNorm2d_forward out ;;
   out <- call_ro "relu" ActivationC DMPreActResNet.relu Activation_forward out ;;
   out <- flift (avg_pool2d out 4) ;;
   out <- flift (view_flat out) ;;
   call_ro "logits" LinearC DMPreActResNet.logits Linear_forward out)%fwd.

End PreActForward.

(** ** Constructor arguments of the blocks of a group, in words

    The first block takes the given input width and stride; every later block
    takes the output width as its input width, and stride 1. *)
Definition block_args (num_blocks in_planes out_planes stride : Z)
  : list (Z * Z * Z) :=
  (in_planes, out_planes, stride)
    :: repeat (out_planes, out_planes, 1) (Z.to_nat (num_blocks - 1)).

(** ** An exact-arithmetic instance of the scalar interface

    Integer scalars, on which the embedding runs on concrete tensors. *)

Definition Zsum (l : list Z) : Z := fold_left Z.add l 0.

Definition Zmean (l : list Z) : Z := Zsum l / Z.of_nat (length l).

Definition Zvar (l : list Z) : Z :=
  Zsum (map (fun v => (v - Zmean l) * (v - Zmean l)) l) / (Z.of_nat (length l) - 1).

#[export] Instance ZScalar : Scalar Z := {
  rzero := 0;
  rone := 1;
  radd := Z.add;
  rsub := Z.sub;
  rmul := Z.mul;
  rdiv := Z.div;
  rabs := Z.abs;
  rsqrt := Z.sqrt;
  rltb := Z.ltb;
  req0 := fun v => Z.eqb v 0;
  tmean := Zmean;
  tvar := Zvar
}.

#[export] Instance ZScalarLaws : ScalarLaws Z.
Proof. split; [intros x; apply Z.mul_1_r | reflexivity]. Qed.

(** A constant tensor of the given shape. *)
Definition full {A : Type} (n c h w : nat) (v : A) : tensor4 A :=
  mkTensor4 n c h w (fun _ _ _ _ => v).

(** ** A small instance of the layer interface

    Layers over integer tensors that keep the shape discipline of the
    framework (channel counts are checked, a convolution changes the channel
    count and the spatial size) and compute crude values; the networks run on
    it on concrete inputs. *)

Record ZConv : Type := mkZConv {
  in_channels : Z;
  out_channels : Z;
  kernel_size : Z;
  stride : Z;
  conv_padding : Z;
  conv_bias : bool
}.

Definition conv_out_size (size : nat) (c : ZConv) : nat :=
  Z.to_nat ((Z.of_nat size + 2 * conv_padding c - kernel_size c) / stride c + 1).

Definition ZConv_forward (c : ZConv) (x : tensor4 Z) : result (tensor4 Z) :=
  if negb (Z.of_nat (dimC x) =? in_channels c) || (stride c <=? 0)
  then Raise RuntimeError
  else Ok (mkTensor4 (dimN x) (Z.to_nat (out_channels c))
                     (conv_out_size (dimH x) c) (conv_out_size (dimW x) c)
                     (fun n _ h w =>
                        elt x n 0%nat (h * Z.to_nat (stride c))%nat
                                      (w * Z.to_nat (stride c))%nat)).

Definition ZBatchNorm_forward (features : Z) (x : tensor4 Z)
  : Z * result (tensor4 Z) :=
  (features, if Z.of_nat (dimC x) =? features then Ok x else Raise RuntimeError).

Definition nonneg_new (n : Z) : result Z :=
  if n <? 0 then Raise RuntimeError else Ok n.

#[export] Instance ZTorch : Torch Z := {
  BatchNorm2d := Z;
  BatchNorm2d_new := nonneg_new;
  BatchNorm2d_forward := ZBatchNorm_forward;
  Conv2d := ZConv;
  Conv2d_new := fun i o k s p b =>
    if (i <? 0) || (o <? 0) then Raise RuntimeError
    else Ok (mkZConv i o k s p b);
  Conv2d_forward := ZConv_forward;
  ActivationFn := unit;
  Activation := unit;
  Activation_new := fun _ => Ok tt;
  Activation_forward := fun _ x => Ok (tmap (Z.max 0) x);
  Tensor2 := list (list Z);
  Linear := (Z * Z)%type;
  Linear_new := fun i o => Ok (i, o);
  Linear_forward := fun l x =>
    Ok (map (fun row => repeat (Zsum row) (Z.to_nat (snd l))) x);
  avg_pool2d := fun x k =>
    if k <=? 0 then Raise RuntimeError
    else Ok (mkTensor4 (dimN x) (dimC x)
                       (dimH x / Z.to_nat k) (dimW x / Z.to_nat k)
                       (fun n c h w =>
                          elt x n c (h * Z.to_nat k)%nat (w * Z.to_nat k)%nat));
  view_rows := fun x n =>
    Ok (map (fun i => map (fun c => elt x i c 0%nat 0%nat) (seq 0 (dimC x)))
            (seq 0 (dimN x)))
}.

(** ** Concrete modules and inputs *)

(** A MeanSparse over two channels in calibrated state, and an input of
    shape (1, 2, 1, 2). *)
Definition ms_calibrated : MeanSparse.t Z :=
  MeanSparse.mk [1; 5] [4; 9] 2 0 1 None None.

Definition ms_calibrating : MeanSparse.t Z :=
  MeanSparse.mk [1; 5] [4; 9] 2 1 2 None None.

Definition x_1212 : tensor4 Z :=
  mkTensor4 1 2 1 2 (fun _ c _ w => Z.of_nat (10 * c + 7 * w)).

Definition ms_fresh (n : nat) : MeanSparse.t Z :=
  MeanSparse.mk (repeat 0 n) (repeat 0 n) 0 0 0 None None.

(** [_Block(2, 2, 1)], [_Block(2, 2, 3)] and [_Block(2, 4, 2)] *)
Definition zblock (stride : Z) : _Block.t Z :=
  _Block.mk 2 (ms_fresh 2) tt (mkZConv 2 2 3 stride 0 false)
            2 (ms_fresh 2) tt (mkZConv 2 2 3 1 1 false)
            false None stride (ms_fresh 2).

Definition zblock_shortcut : _Block.t Z :=
  _Block.mk 2 (ms_fresh 2) tt (mkZConv 2 4 3 2 0 false)
            4 (ms_fresh 4) tt (mkZConv 4 4 3 1 1 false)
            true (Some (mkZConv 2 4 1 2 0 false)) 2 (ms_fresh 4).

(** [_PreActBlock(2, 2, 1)] *)
Definition zpreact : _PreActBlock.t Z :=
  _PreActBlock.mk 1 2 tt (mkZConv 2 2 3 1 0 false)
                  2 tt (mkZConv 2 2 3 1 1 false) false None.

(** An input of shape (1, 2, 4, 4). *)
Definition x_1244 : tensor4 Z :=
  mkTensor4 1 2 4 4 (fun _ c h w => Z.of_nat c + Z.of_nat h - Z.of_nat w).

(** [_PreActBlock(2, 2, 3)] *)
Definition zpreact_stride3 : _PreActBlock.t Z :=
  _PreActBlock.mk 3 2 tt (mkZConv 2 2 3 3 0 false)
                  2 tt (mkZConv 2 2 3 1 1 false)
                  true (Some (mkZConv 2 2 3 3 0 false)).

(** A small WideResNet: depth 10 (one block per group), width 1, built by
    the constructor; and an input of shape (1, 3, 32, 32). *)
Definition ok_or {A : Type} (d : A) (r : result A) : A :=
  match r with Ok a => a | Raise _ => d end.

Definition znet : DMWideResNet.t Z :=
  Eval vm_compute in
    ok_or (DMWideResNet.mk [] [] 0 (mkZConv 0 0 0 0 0 false) [] 0
                           (ms_fresh 0) tt (0, 0) 0)
          (DMWideResNet.__init__ 10 10 1 tt [0; 0; 0] [1; 1; 1] 0 3).

Definition x_image : tensor4 Z :=
  mkTensor4 1 3 32 32
    (fun _ c h w => Z.of_nat c + Z.of_nat h - 2 * Z.of_nat w).

(** [out.view(out.size(0), -1)] on integer tensors with one row and column. *)
Definition zview_flat (x : tensor4 Z) : result (list (list Z)) :=
  Ok (map (fun i => map (fun c => elt x i c 0%nat 0%nat) (seq 0 (dimC x)))
          (seq 0 (dimN x))).

(** Case analysis on the innermost scrutinee of the goal. *)
Ltac case_scrutinee :=
  match goal with
  | |- context [match ?e with _ => _ end] =>
      lazymatch e with
      | context [match _ with _ => _ end] => fail
      | _ => destruct e eqn:?
      end
  end.

Ltac run_forward :=
  unfold fbind, fget, fret, fraise, flift, call, call_ro, zoom; cbn.

(** The constructors of the framework succeed on non-negative sizes. *)
Definition framework_builds {R : Type} (T : Torch R) : Prop :=
  (forall n, 0 <= n -> exists bn, BatchNorm2d_new n = Ok bn) /\
  (forall i o k s p b, 0 <= i -> 0 <= o ->
                       exists c, Conv2d_new i o k s p b = Ok c) /\
  (forall fn, exists a, Activation_new fn = Ok a) /\
  (forall i o, 0 <= i -> 0 <= o -> exists l, Linear_new i o = Ok l).

(** Reduction of the record projections of a block, and the operations of
    its forward pass. *)
Ltac block_simpl :=
  cbv beta iota zeta;
  cbn [_Block.has_shortcut _Block._stride _Block.shortcut
       _Block.conv_0 _Block.conv_1 _Block.relu_0 _Block.relu_1
       _Block.batchnorm_0 _Block.batchnorm_1
       _Block.meansparse_0 _Block.meansparse_1 _Block.meansparse_2
       _Block.set_batchnorm_0 _Block.set_meansparse_0
       _Block.set_batchnorm_1 _Block.set_meansparse_1
       _Block.set_meansparse_2 fst snd].

Ltac block_unfold :=
  unfold _Block.forward, _Block.preactivate, _Block.convolve,
    _Block.pad_for_stride, _Block.shortcut_forward,
    torch_add, fbind, fget, fret, fraise, flift, call, call_ro.

(** * Theorems *)

Lemma bdim_refl a : bdim a a = Some a.
Proof. unfold bdim. now rewrite Nat.eqb_refl. Qed.

Lemma bdim_1_r a : bdim a 1 = Some a.
Proof.
  unfold bdim. destruct (Nat.eqb a 1); reflexivity.
Qed.

Lemma bdim_1_l a : bdim 1 a = Some a.
Proof.
  unfold bdim. destruct (Nat.eqb 1 a) eqn:E; [|reflexivity].
  apply Nat.eqb_eq in E. now subst.
Qed.

Lemma bix_lt d i : (i < d)%nat -> bix d i = i.
Proof.
  unfold bix. destruct (Nat.eqb d 1) eqn:E; [|reflexivity].
  apply Nat.eqb_eq in E. lia.
Qed.

Lemma bix_1 i : bix 1 i = 0%nat.
Proof. reflexivity. Qed.

Section MeanSparseFacts.
Context {R : Type} {SR : Scalar R}.

Import MeanSparse.

Lemma update_statistics_flag0 (self : MeanSparse.t R) x :
  flag_update_statistics self = 0 ->
  update_statistics self x = (self, Ok tt).
Proof. unfold update_statistics. intros ->. reflexivity. Qed.

Lemma length_reduce_023 {B : Type} (red : list R -> B) (x : tensor4 R) :
  length (reduce_023 red x) = dimC x.
Proof. unfold reduce_023. now rewrite length_map, length_seq. Qed.

Lemma iadd_same_length (a b : list R) :
  length b = length a ->
  iadd a b = Ok (map (fun p => radd (fst p) (snd p)) (combine a b)).
Proof. unfold iadd. intros ->. now rewrite Nat.eqb_refl. Qed.

Lemma iadd_length (a b r : list R) :
  iadd a b = Ok r -> length r = length a.
Proof.
  unfold iadd. destruct (Nat.eqb (length b) (length a)) eqn:E.
  - apply Nat.eqb_eq in E. intros [= <-].
    rewrite length_map, length_combine. lia.
  - destruct b as [|o [|? ?]]; try discriminate.
    intros [= <-]. now rewrite length_map.
Qed.

(** [update_statistics] keeps the lengths of the two buffers and the three
    scalar buffers. *)
Lemma update_statistics_frame (self self' : MeanSparse.t R) x r :
  update_statistics self x = (self', r) ->
  length (running_mean self') = length (running_mean self) /\
  length (running_var self') = length (running_var self) /\
  threshold self' = threshold self /\
  flag_update_statistics self' = flag_update_statistics self /\
  batch_num self' = batch_num self.
Proof.
  unfold update_statistics.
  destruct (Z.eqb (flag_update_statistics self) 0).
  - intros [= <- <-]. auto.
  - destruct (iadd (running_mean self) _) as [rm|e] eqn:E1.
    + apply iadd_length in E1.
      destruct (iadd (running_var _) _) as [rv|e] eqn:E2.
      * apply iadd_length in E2. intros [= <- <-]. cbn in *. auto.
      * intros [= <- <-]. cbn. auto.
    + intros [= <- <-]. auto.
Qed.

Lemma bdim_compat a b :
  a = b \/ a = 1%nat \/ b = 1%nat ->
  exists c, bdim a b = Some c /\ bdim c b = Some c /\ bdim b a = Some c /\
            bdim c a = Some c.
Proof.
  intros [->|[->| ->]].
  - exists b. now rewrite !bdim_refl.
  - exists b. now rewrite bdim_1_l, bdim_1_r, bdim_refl.
  - exists a. now rewrite bdim_1_l, bdim_1_r, bdim_refl.
Qed.

Lemma bix_bdim_lt a b co c :
  bdim a b = Some co -> (c < co)%nat -> (bix b c < b)%nat.
Proof.
  unfold bdim, bix.
  destruct (Nat.eqb a b) eqn:E1; [apply Nat.eqb_eq in E1; subst|];
    [intros [= <-]; destruct (Nat.eqb b 1); lia|].
  destruct (Nat.eqb a 1) eqn:E2; [intros [= <-]; destruct (Nat.eqb b 1); lia|].
  destruct (Nat.eqb b 1) eqn:E3; [|discriminate].
  apply Nat.eqb_eq in E3. lia.
Qed.

Lemma sparsify_ok (self : MeanSparse.t R) (x : tensor4 R) :
  length (running_var self) = length (running_mean self) ->
  (dimC x = length (running_mean self) \/ dimC x = 1%nat \/
   length (running_mean self) = 1%nat) ->
  exists out,
    sparsify self x = Ok out /\
    (req0 (threshold self) = true -> out = x) /\
    (req0 (threshold self) = false ->
     dimN out = dimN x /\ dimH out = dimH x /\ dimW out = dimW x /\
     bdim (dimC x) (length (running_mean self)) = Some (dimC out) /\
     forall n c h w,
       (n < dimN out)%nat -> (c < dimC out)%nat ->
       (h < dimH out)%nat -> (w < dimW out)%nat ->
       elt out n c h w =
       if rltb (rabs (rsub (elt x n (bix (dimC x) c) h w)
                           (nth (bix (length (running_mean self)) c)
                                (running_mean self) rzero)))
               (rmul (threshold self)
                     (rsqrt (nth (bix (length (running_var self)) c)
                                 (running_var self) rzero)))
       then rmul (nth (bix (length (running_mean self)) c)
                      (running_mean self) rzero) rone
       else elt x n (bix (dimC x) c) h w).
Proof.
  intros Hlen Hc.
  destruct (bdim_compat Hc) as (co & B1 & B2 & B3 & B4).
  unfold sparsify, tmap2, torch_where, shape, bshape. cbn.
  rewrite length_map, Hlen, !bdim_1_r, B1. cbn.
  destruct (req0 (threshold self)) eqn:Hthr.
  - exists x. split; [reflexivity|]. split; [reflexivity|discriminate].
  - repeat (cbn; first [ rewrite bdim_1_r | rewrite bdim_1_l | rewrite bdim_refl
                       | rewrite B2 | rewrite B3 | rewrite B4 ]).
    cbn. eexists. split; [reflexivity|]. split; [discriminate|]. intros _.
    cbn. repeat split; auto. intros n c h w Hn Hc' Hh Hw.
    unfold bget. rewrite !(bix_lt Hn), !(bix_lt Hh), !(bix_lt Hw), !(bix_lt Hc').
    assert (Hi : (bix (length (running_mean self)) c
                  < length (map rsqrt (running_var self)))%nat).
    { rewrite length_map, Hlen. eapply bix_bdim_lt; eauto. }
    rewrite (nth_indep _ rzero (rsqrt rzero) Hi), map_nth.
    reflexivity.
Qed.

Lemma iadd_ok (a b : list R) :
  length b = length a \/ length b = 1%nat ->
  exists r, iadd a b = Ok r.
Proof.
  unfold iadd. intros [E|E].
  - rewrite E, Nat.eqb_refl. eauto.
  - destruct (Nat.eqb _ _); [eauto|].
    destruct b as [|o [|? ?]]; try discriminate. eauto.
Qed.

Lemma update_statistics_ok (self : MeanSparse.t R) x :
  length (running_var self) = length (running_mean self) ->
  flag_update_statistics self = 0 \/
  dimC x = length (running_mean self) \/ dimC x = 1%nat ->
  exists self', update_statistics self x = (self', Ok tt).
Proof.
  intros Hlen Hc. unfold update_statistics.
  destruct (Z.eqb_spec (flag_update_statistics self) 0) as [E|E]; [eauto|].
  destruct Hc as [Hc|Hc]; [contradiction|].
  destruct (@iadd_ok (running_mean self)
              (map (fun m => rdiv m (batch_num self)) (reduce_023 tmean x)))
    as [rm Hrm].
  { rewrite length_map, length_reduce_023. tauto. }
  rewrite Hrm. cbn.
  destruct (@iadd_ok (running_var self)
              (map (fun v => rdiv v (batch_num self)) (reduce_023 tvar x)))
    as [rv Hrv].
  { rewrite length_map, length_reduce_023, Hlen. tauto. }
  rewrite Hrv. eauto.
Qed.

Lemma nth_reduce_023 {B : Type} (red : list R -> B) (x : tensor4 R) c d :
  (c < dimC x)%nat -> nth c (reduce_023 red x) d = red (channel_values x c).
Proof.
  intros Hc. unfold reduce_023.
  rewrite (nth_indep _ d (red (channel_values x 0))),
    (map_nth (fun c => red (channel_values x c))), seq_nth by
    (rewrite ?length_map, ?length_seq; lia).
  reflexivity.
Qed.

Lemma nth_iadd_same_length (a b r : list R) c :
  length b = length a -> iadd a b = Ok r -> (c < length a)%nat ->
  nth c r rzero = radd (nth c a rzero) (nth c b rzero).
Proof.
  intros Hl Hr Hc. rewrite (iadd_same_length _ _ Hl) in Hr.
  injection Hr as <-.
  rewrite (nth_indep _ rzero
             ((fun p => radd (fst p) (snd p)) (rzero, rzero))),
    (map_nth (fun p => radd (fst p) (snd p))), combine_nth by
    (rewrite ?length_map, ?length_combine; lia).
  reflexivity.
Qed.

Lemma nth_iadd_scaled (red : list R -> R) (bn : R) (a : list R)
      (x : tensor4 R) (r : list R) :
  length a = dimC x ->
  iadd a (map (fun m => rdiv m bn) (reduce_023 red x)) = Ok r ->
  forall c, (c < dimC x)%nat ->
    nth c r rzero = radd (nth c a rzero) (rdiv (red (channel_values x c)) bn).
Proof.
  intros Hl Hr c Hc.
  assert (Hb : length (map (fun m => rdiv m bn) (reduce_023 red x)) = length a)
    by (rewrite length_map, length_reduce_023; lia).
  rewrite (@nth_iadd_same_length _ _ _ c Hb Hr) by lia.
  f_equal.
  rewrite (nth_indep (map (fun m => rdiv m bn) (reduce_023 red x))
                     rzero (rdiv rzero bn)) by lia.
  rewrite (map_nth (fun m => rdiv m bn)), nth_reduce_023 by lia.
  reflexivity.
Qed.

End MeanSparseFacts.

(** ** MeanSparse.forward *)

Section MeanSparseForward.
Context {R : Type} {SR : Scalar R}.

Import MeanSparse.

(** C1 (as amended).  On every 4-D input whose channel count agrees with the
    buffers (equal to their length, or 1, or the buffers have length 1 and
    the calibration flag is off), [forward] returns; the result is the input
    itself when [threshold == 0], and otherwise has, at every position, the
    running mean of the channel where
    [|input - running_mean| < threshold * sqrt(running_var)] and the input
    value elsewhere, with the buffers as [forward] leaves them. *)
Theorem MeanSparse_forward_sparsifies
        (L : ScalarLaws R) (self : MeanSparse.t R) (x : tensor4 R) :
  length (running_var self) = length (running_mean self) ->
  (dimC x = length (running_mean self) \/ dimC x = 1%nat \/
   (length (running_mean self) = 1%nat /\ flag_update_statistics self = 0)) ->
  exists self' out,
    forward self x = (self', Ok out) /\
    (req0 (threshold self) = true -> out = x) /\
    (req0 (threshold self) = false ->
     dimN out = dimN x /\ dimH out = dimH x /\ dimW out = dimW x /\
     bdim (dimC x) (length (running_mean self)) = Some (dimC out) /\
     forall n c h w,
       (n < dimN out)%nat -> (c < dimC out)%nat ->
       (h < dimH out)%nat -> (w < dimW out)%nat ->
       elt out n c h w = sparsified_at self' x n c h w).
Proof.
  intros Hlen Hc.
  destruct (@update_statistics_ok _ _ self x Hlen) as [self' Hu]; [tauto|].
  destruct (update_statistics_frame _ _ Hu) as (Hm & Hv & Ht & Hf & Hb).
  destruct (@sparsify_ok _ _ self' x) as (out & Hs & H0 & H1).
  { congruence. }
  { rewrite Hm. tauto. }
  exists self', out. unfold forward. rewrite Hu, Hs, <- Ht.
  split; [reflexivity|]. split; [exact H0|].
  intros Hthr. destruct (H1 Hthr) as (HN & HH & HW & HC & He).
  rewrite <- Hm. repeat split; auto.
  intros n c h w Hn Hc' Hh Hw. rewrite (He n c h w Hn Hc' Hh Hw).
  unfold sparsified_at. now rewrite rmul_one_r.
Qed.

End MeanSparseForward.

Lemma MeanSparse_forward_sparsifies_witness :
  length (MeanSparse.running_var ms_calibrated)
  = length (MeanSparse.running_mean ms_calibrated) /\
  exists self' out,
    MeanSparse.forward ms_calibrated x_1212 = (self', Ok out) /\
    (req0 (MeanSparse.threshold ms_calibrated) = true -> out = x_1212) /\
    (req0 (MeanSparse.threshold ms_calibrated) = false ->
     dimN out = dimN x_1212 /\ dimH out = dimH x_1212 /\
     dimW out = dimW x_1212 /\
     bdim (dimC x_1212) (length (MeanSparse.running_mean ms_calibrated))
     = Some (dimC out) /\
     forall n c h w,
       (n < dimN out)%nat -> (c < dimC out)%nat ->
       (h < dimH out)%nat -> (w < dimW out)%nat ->
       elt out n c h w = sparsified_at self' x_1212 n c h w).
Proof.
  split; [reflexivity|].
  apply (MeanSparse_forward_sparsifies ZScalarLaws ms_calibrated x_1212);
    [reflexivity | left; reflexivity].
Defined.

(** C1, as stated, fails: with [threshold == 0] and an input of two channels
    against buffers of three, [diff = input - bias] raises before the
    threshold is looked at, and nothing is returned. *)
Lemma MeanSparse_forward_threshold0_raises :
  let self := MeanSparse.mk [0; 0; 0] [1; 1; 1] 0 0 1 None None in
  let x := full 1 2 1 1 5 in
  req0 (MeanSparse.threshold self) = true /\
  MeanSparse.forward self x = (self, Raise RuntimeError) /\
  snd (MeanSparse.forward self x) <> Ok x.
Proof.
  cbv zeta. split; [reflexivity|]. split; [reflexivity|].
  cbn. discriminate.
Qed.

Example forward_statistics_example :
  MeanSparse.running_mean (fst (MeanSparse.forward ms_calibrating x_1212))
  = [2; 11] /\
  MeanSparse.running_var (fst (MeanSparse.forward ms_calibrating x_1212))
  = [16; 21].
Proof. split; reflexivity. Qed.

Example forward_sparsifies_example :
  match snd (MeanSparse.forward ms_calibrated x_1212) with
  | Ok out => (elt out 0 0 0 0, elt out 0 0 0 1, elt out 0 1 0 0, elt out 0 1 0 1)%nat
              = (1, 7, 5, 17)
  | Raise _ => False
  end.
Proof. reflexivity. Qed.

(** ** A freshly constructed MeanSparse *)

Section MeanSparseFresh.
Context {R : Type} {SR : Scalar R}.

Import MeanSparse.

(** C5 (as amended).  [MeanSparse(in_planes)] has all-zero [running_mean]
    and [running_var] of length [in_planes], [threshold] 0.0,
    [flag_update_statistics] 0 and [batch_num] 0.0; in that state [forward]
    returns its input and leaves every buffer as it was, on every 4-D input
    whose channel count agrees with [in_planes] (equal to it, or one of the
    two is 1). *)
Theorem MeanSparse_fresh_forward_identity
        (L : ScalarLaws R) (in_planes : Z) :
  0 <= in_planes ->
  exists m,
    MeanSparse.__init__ in_planes = Ok m /\
    running_mean m = repeat rzero (Z.to_nat in_planes) /\
    running_var m = repeat rzero (Z.to_nat in_planes) /\
    threshold m = rzero /\
    flag_update_statistics m = 0 /\
    batch_num m = rzero /\
    forall x : tensor4 R,
      dimC x = Z.to_nat in_planes \/ dimC x = 1%nat \/ in_planes = 1 ->
      forward m x = (m, Ok x).
Proof.
  intros Hn. unfold __init__, torch_zeros.
  destruct (Z.ltb_spec in_planes 0) as [?|_]; [lia|].
  set (z := repeat rzero (Z.to_nat in_planes)).
  exists (mk z z rzero 0 rzero None None).
  split; [reflexivity|]. do 5 (split; [reflexivity|]).
  intros x Hx. unfold forward.
  rewrite update_statistics_flag0 by reflexivity.
  destruct (@sparsify_ok _ _ (mk z z rzero 0 rzero None None) x)
    as (out & Hs & H0 & _).
  - reflexivity.
  - cbn. unfold z. rewrite repeat_length.
    destruct Hx as [Hx|[Hx|Hx]]; [tauto|tauto|].
    right; right. subst. reflexivity.
  - rewrite Hs, H0; [reflexivity|]. cbn. apply req0_zero.
Qed.

End MeanSparseFresh.

Lemma MeanSparse_fresh_forward_identity_witness :
  0 <= 3 /\
  exists m,
    MeanSparse.__init__ 3 = Ok m /\
    MeanSparse.running_mean m = repeat rzero (Z.to_nat 3) /\
    MeanSparse.running_var m = repeat rzero (Z.to_nat 3) /\
    MeanSparse.threshold m = rzero /\
    MeanSparse.flag_update_statistics m = 0 /\
    MeanSparse.batch_num m = rzero /\
    forall x : tensor4 Z,
      dimC x = Z.to_nat 3 \/ dimC x = 1%nat \/ 3 = 1 ->
      MeanSparse.forward m x = (m, Ok x).
Proof.
  split; [lia|].
  apply (MeanSparse_fresh_forward_identity ZScalarLaws (in_planes := 3)). lia.
Defined.

(** C5, as stated, fails: a fresh [MeanSparse(3)] raises on an input of five
    channels. *)
Lemma MeanSparse_fresh_forward_raises :
  exists m : MeanSparse.t Z,
    MeanSparse.__init__ 3 = Ok m /\
    MeanSparse.forward m (full 2 5 4 4 1) = (m, Raise RuntimeError).
Proof. eexists. split; reflexivity. Qed.

(** ** The WideResNet block *)

Section BlockFacts.
Context {R : Type} {SR : Scalar R} {T : Torch R}.

Import _Block.

(** [preactivate] touches [batchnorm_0] and [meansparse_0] only. *)
Lemma preactivate_frame (b b1 : _Block.t R) x l r :
  preactivate x b = (b1, l, r) ->
  has_shortcut b1 = has_shortcut b /\ _stride b1 = _stride b /\
  shortcut b1 = shortcut b /\ conv_0 b1 = conv_0 b /\
  batchnorm_1 b1 = batchnorm_1 b /\ meansparse_1 b1 = meansparse_1 b /\
  relu_1 b1 = relu_1 b /\ conv_1 b1 = conv_1 b /\
  meansparse_2 b1 = meansparse_2 b.
Proof.
  unfold preactivate. run_forward.
  repeat case_scrutinee; intros [= <- <- <-]; cbn; repeat split.
Qed.

(** Once the pre-activation has returned, [forward] pads it and goes on
    with lines 206-211. *)
Lemma forward_after_preactivate (b b1 : _Block.t R) x l1 pre :
  preactivate x b = (b1, l1, Ok pre) ->
  forward x b =
  resume b1 l1
         (fbind (flift (pad_for_stride b1 pre))
                (convolve (if has_shortcut b then pre else x))).
Proof.
  intros Hp. destruct (preactivate_frame _ _ Hp) as (Hs1 & _).
  unfold forward, resume, fbind, fget, fret, fraise, flift. cbv beta.
  destruct (has_shortcut b) eqn:Hs; rewrite Hp; cbv beta iota;
    rewrite Hs1; cbv beta iota;
    (destruct (pad_for_stride b1 pre) as [v|e]; cbv beta iota;
     [ destruct (convolve _ v b1) as [[s2 l2] r]
     | rewrite ?app_nil_r; reflexivity ]);
    cbn; rewrite ?app_nil_r; reflexivity.
Qed.

Lemma forward_preactivate_raises (b b1 : _Block.t R) x l1 e :
  preactivate x b = (b1, l1, Raise e) ->
  forward x b = (b1, l1, Raise e).
Proof.
  intros Hp. unfold forward, fbind, fget. cbv beta.
  destruct (has_shortcut b); rewrite Hp; reflexivity.
Qed.

End BlockFacts.

(** ** Groups of blocks *)

Lemma mapM_ext {A B : Type} (f g : A -> result B) (l : list A) :
  (forall a, In a l -> f a = g a) -> mapM f l = mapM g l.
Proof.
  induction l as [|a l IH]; intros H; [reflexivity|].
  cbn. rewrite (H a (or_introl eq_refl)), IH; [reflexivity|].
  intros a' Ha'. apply H. now right.
Qed.

Lemma mapM_map {A B C : Type} (f : B -> result C) (g : A -> B) (l : list A) :
  mapM f (map g l) = mapM (fun a => f (g a)) l.
Proof.
  induction l as [|a l IH]; [reflexivity|]. cbn. now rewrite IH.
Qed.

Lemma mapM_length {A B : Type} (f : A -> result B) (l : list A) (r : list B) :
  mapM f l = Ok r -> length r = length l.
Proof.
  revert r. induction l as [|a l IH]; intros r.
  - intros [= <-]. reflexivity.
  - cbn. destruct (f a); [|discriminate]. cbn.
    destruct (mapM f l) eqn:E; [|discriminate]. cbn.
    intros [= <-]. cbn. now rewrite (IH _ eq_refl).
Qed.

Lemma mapM_seq_repeat {A B : Type} (f : nat -> result B) (g : A -> result B)
      (a : A) (k start : nat) :
  (forall i, (start <= i)%nat -> f i = g a) ->
  mapM f (seq start k) = mapM g (repeat a k).
Proof.
  revert start. induction k as [|k IH]; intros start H; [reflexivity|].
  cbn. rewrite (H start (le_n _)), (IH (S start)); [reflexivity|].
  intros i Hi. apply H. lia.
Qed.

Lemma mapM_enumerate_repeat {A B C : Type} (f : nat * C -> result B)
      (g : A -> result B) (a : A) (c : C) (k start : nat) :
  (forall i, (start <= i)%nat -> f (i, c) = g a) ->
  mapM f (combine (seq start k) (repeat c k)) = mapM g (repeat a k).
Proof.
  revert start. induction k as [|k IH]; intros start H; [reflexivity|].
  cbn. rewrite (H start (le_n _)), (IH (S start)); [reflexivity|].
  intros i Hi. apply H. lia.
Qed.

Lemma and_or_first (a b : Z) : a <> 0 -> and_or true a b = a.
Proof.
  intros H. unfold and_or. destruct (Z.eqb_spec a 0); [contradiction|reflexivity].
Qed.

Section GroupFacts.
Context {R : Type} {SR : Scalar R} {T : Torch R}.

(** C9 (as amended).  For [num_blocks >= 1] and a non-zero [in_planes]
    (and, in [_BlockGroup], a non-zero [stride]), the blocks are built from
    the arguments [block_args]: the first with the given [in_planes] and
    [stride], every later one with [out_planes] as input width and stride
    1; they are kept, and called, in construction order. *)
Theorem group_construction
        (num_blocks in_planes out_planes stride : Z) (fn : ActivationFn) :
  1 <= num_blocks ->
  in_planes <> 0 ->
  (stride <> 0 ->
   _BlockGroup.__init__ num_blocks in_planes out_planes stride fn =
   rbind (mapM (fun a : Z * Z * Z =>
                  let '(i, o, s) := a in _Block.__init__ i o s fn)
               (block_args num_blocks in_planes out_planes stride))
         (fun blocks => Ok (_BlockGroup.mk blocks))) /\
  DMPreActResNet._make_layer in_planes out_planes num_blocks stride fn =
  mapM (fun a : Z * Z * Z =>
          let '(i, o, s) := a in _PreActBlock.__init__ i o s fn)
       (block_args num_blocks in_planes out_planes stride) /\
  (forall (b : _Block.t R) (rest : list (_Block.t R)) (x : tensor4 R),
      _BlockGroup.forward x (_BlockGroup.mk (b :: rest)) =
      match _Block.forward x b with
      | (b1, l1, Ok y) =>
          let '(g, l2, r) := _BlockGroup.forward y (_BlockGroup.mk rest) in
          (_BlockGroup.mk (b1 :: _BlockGroup.block g), l1 ++ l2, r)
      | (b1, l1, Raise e) => (_BlockGroup.mk (b1 :: rest), l1, Raise e)
      end).
Proof.
  intros Hn Hin.
  assert (Hk : Z.to_nat num_blocks = S (Z.to_nat (num_blocks - 1))) by lia.
  split; [|split].
  - intros Hs. unfold _BlockGroup.__init__, block_args.
    rewrite Hk. cbn [seq mapM].
    rewrite !and_or_first by assumption.
    rewrite (mapM_seq_repeat _
               (fun a : Z * Z * Z =>
                  let '(i, o, s) := a in _Block.__init__ i o s fn)
               (out_planes, out_planes, 1)); [reflexivity|].
    intros i Hi. destruct i; [lia|]. reflexivity.
  - unfold DMPreActResNet._make_layer, block_args.
    cbn [length]. rewrite repeat_length.
    cbn [seq combine mapM]. rewrite and_or_first by assumption.
    rewrite (mapM_enumerate_repeat _
               (fun a : Z * Z * Z =>
                  let '(i, o, s) := a in _PreActBlock.__init__ i o s fn)
               (out_planes, out_planes, 1)); [reflexivity|].
    intros i Hi. destruct i; [lia|]. reflexivity.
  - intros b rest x. unfold _BlockGroup.forward, zoom.
    cbn [_BlockGroup.block sequential].
    destruct (_Block.forward x b) as [[b1 l1] [y|e]]; [|reflexivity].
    destruct (sequential _Block.forward y rest) as [[rest1 l2] r].
    reflexivity.
Qed.

End GroupFacts.

(** ** Validation of the architecture configuration *)

Section Configuration.
Context {R : Type} {SR : Scalar R} {T : Torch R}.

Lemma _BlockGroup_init_length (n i o s : Z) (fn : ActivationFn)
      (g : _BlockGroup.t R) :
  _BlockGroup.__init__ n i o s fn = Ok g ->
  length (_BlockGroup.block g) = Z.to_nat n.
Proof.
  unfold _BlockGroup.__init__, rbind.
  destruct (mapM _ _) as [bl|e] eqn:E; [|discriminate].
  intros [= <-]. cbn. apply mapM_length in E. now rewrite E, length_seq.
Qed.

Lemma _make_layer_length (i o n s : Z) (fn : ActivationFn)
      (l : list (_PreActBlock.t R)) :
  DMPreActResNet._make_layer i o n s fn = Ok l ->
  length l = S (Z.to_nat (n - 1)).
Proof.
  unfold DMPreActResNet._make_layer. intros E. apply mapM_length in E.
  rewrite E, length_combine, length_seq. cbn [length].
  rewrite repeat_length. lia.
Qed.

End Configuration.

(** ** Tensors of the same entries *)

Lemma tensor_eq_refl {A : Type} (a : tensor4 A) : tensor_eq a a.
Proof. split; auto. Qed.

(** ** The model on concrete modules *)

Example zblock_constructed :
  _Block.__init__ 2 2 1 tt = Ok (zblock 1) /\
  _Block.__init__ 2 2 3 tt = Ok (zblock 3) /\
  _Block.__init__ 2 4 2 tt = Ok zblock_shortcut /\
  _PreActBlock.__init__ 2 2 1 tt = Ok zpreact.
Proof. repeat split. Qed.

Example zblock_forward_shapes :
  match _Block.forward x_1244 (zblock 1),
        _Block.forward x_1244 zblock_shortcut with
  | (_, _, Ok a), (_, _, Ok b) =>
      shape a = (1, 2, 4, 4)%nat /\ shape b = (1, 4, 2, 2)%nat
  | _, _ => False
  end.
Proof. vm_compute. split; reflexivity. Qed.

(** C4, as stated, fails: [_PreActBlock.forward] runs to completion through
    batch normalisation, activation and convolution only; no MeanSparse is
    among the modules it calls. *)
Lemma PreActBlock_forward_calls_no_MeanSparse :
  _PreActBlock.__init__ 2 2 1 tt = Ok zpreact /\
  is_ok (snd (_PreActBlock.forward x_1244 zpreact)) = true /\
  map kind (snd (fst (_PreActBlock.forward x_1244 zpreact)))
  = [BatchNorm2dC; ActivationC; Conv2dC; BatchNorm2dC; ActivationC; Conv2dC] /\
  calls_of MeanSparseC (snd (fst (_PreActBlock.forward x_1244 zpreact))) = 0%nat.
Proof. repeat split. Qed.

Example zblock_unsupported_stride :
  snd (_Block.forward x_1244 (zblock 3))
  = Raise (ValueError "Unsupported `stride`.").
Proof. reflexivity. Qed.

Lemma group_construction_witness :
  1 <= 3 /\ 16 <> 0 /\
  (2 <> 0 ->
   _BlockGroup.__init__ (T := ZTorch) 3 16 32 2 tt =
   rbind (mapM (fun a : Z * Z * Z =>
                  let '(i, o, s) := a in _Block.__init__ i o s tt)
               (block_args 3 16 32 2))
         (fun blocks => Ok (_BlockGroup.mk blocks))) /\
  DMPreActResNet._make_layer (T := ZTorch) 16 32 3 2 tt =
  mapM (fun a : Z * Z * Z =>
          let '(i, o, s) := a in _PreActBlock.__init__ i o s tt)
       (block_args 3 16 32 2).
Proof.
  assert (H1 : 1 <= 3) by lia.
  assert (H2 : 16 <> 0) by lia.
  split; [exact H1|]. split; [exact H2|].
  destruct (@group_construction Z ZScalar ZTorch 3 16 32 2 tt H1 H2)
    as (Hg & Hl & _).
  split; [exact Hg | exact Hl].
Defined.

Example block_args_example :
  block_args 3 16 32 2 = [(16, 32, 2); (32, 32, 1); (32, 32, 1)].
Proof. reflexivity. Qed.

(** C9, as stated, fails: [i == 0 and in_planes or out_planes] falls through
    to [out_planes] when [in_planes] is 0, and [i == 0 and stride or 1] to 1
    when [stride] is 0, so the first block is not built with the given
    values. *)
Lemma group_construction_zero_arguments :
  _BlockGroup.__init__ (T := ZTorch) 1 0 2 1 tt
  = rbind (_Block.__init__ 2 2 1 tt) (fun b => Ok (_BlockGroup.mk [b])) /\
  _BlockGroup.__init__ (T := ZTorch) 1 0 2 1 tt
  <> rbind (_Block.__init__ 0 2 1 tt) (fun b => Ok (_BlockGroup.mk [b])) /\
  _BlockGroup.__init__ (T := ZTorch) 1 2 2 0 tt
  = rbind (_Block.__init__ 2 2 1 tt) (fun b => Ok (_BlockGroup.mk [b])) /\
  _BlockGroup.__init__ (T := ZTorch) 1 2 2 0 tt
  <> rbind (_Block.__init__ 2 2 0 tt) (fun b => Ok (_BlockGroup.mk [b])) /\
  DMPreActResNet._make_layer (T := ZTorch) 0 2 1 1 tt
  = rbind (_PreActBlock.__init__ 2 2 1 tt) (fun b => Ok [b]) /\
  DMPreActResNet._make_layer (T := ZTorch) 0 2 1 1 tt
  <> rbind (_PreActBlock.__init__ 0 2 1 tt) (fun b => Ok [b]).
Proof.
  repeat split; try (intros H; vm_compute in H; discriminate H).
Qed.

Example configuration_accepted :
  match DMPreActResNet.__init__ (T := ZTorch) 10 34 0 tt [1; 1; 1] [1; 1; 1]
                                0 3 true with
  | Ok m => map (@length _)
                [DMPreActResNet.layer_0 m; DMPreActResNet.layer_1 m;
                 DMPreActResNet.layer_2 m; DMPreActResNet.layer_3 m]
            = [3; 4; 6; 3]%nat
  | Raise _ => False
  end /\
  match DMWideResNet.__init__ (T := ZTorch) 10 28 10 tt [1; 1; 1] [1; 1; 1]
                              0 3 with
  | Ok m => map (fun g => length (_BlockGroup.block g)) (DMWideResNet.layer m)
            = [4; 4; 4]%nat
  | Raise _ => False
  end.
Proof. split; vm_compute; reflexivity. Qed.


(** * Further properties of the code *)

(** ** MeanSparse.forward: when it raises, and what it keeps *)

Section MeanSparseEdges.
Context {R : Type} {SR : Scalar R}.

Import MeanSparse.

Lemma bdim_none a b :
  a <> b -> a <> 1%nat -> b <> 1%nat -> bdim a b = None.
Proof.
  intros H1 H2 H3. unfold bdim.
  destruct (Nat.eqb_spec a b); [contradiction|].
  destruct (Nat.eqb_spec a 1); [contradiction|].
  destruct (Nat.eqb_spec b 1); [contradiction|]. reflexivity.
Qed.

Lemma iadd_raises (a b : list R) :
  length b <> length a -> length b <> 1%nat -> iadd a b = Raise RuntimeError.
Proof.
  intros H1 H2. unfold iadd.
  destruct (Nat.eqb_spec (length b) (length a)); [contradiction|].
  destruct b as [|o [|? ?]]; try reflexivity. cbn in H2. lia.
Qed.

Lemma sparsify_raises (self : MeanSparse.t R) (x : tensor4 R) :
  dimC x <> length (running_mean self) -> dimC x <> 1%nat ->
  length (running_mean self) <> 1%nat ->
  sparsify self x = Raise RuntimeError.
Proof.
  intros H1 H2 H3. unfold sparsify, tmap2, shape, bshape. cbn.
  rewrite (bdim_none H1 H2 H3).
  destruct (bdim (dimN x) 1); reflexivity.
Qed.

(** X1.  With buffers of one length C, [forward] returns exactly on the
    inputs whose channel count is C or 1, or any channel count when C is 1
    and the calibration flag is off; on every other input it raises a
    [RuntimeError] and leaves all buffers as they were. *)
Theorem MeanSparse_forward_raises_exactly_on_mismatch
        (self : MeanSparse.t R) (x : tensor4 R) :
  length (running_var self) = length (running_mean self) ->
  let compatible :=
    dimC x = length (running_mean self) \/ dimC x = 1%nat \/
    (length (running_mean self) = 1%nat /\ flag_update_statistics self = 0) in
  (compatible -> is_ok (snd (forward self x)) = true) /\
  (~ compatible -> forward self x = (self, Raise RuntimeError)).
Proof.
  intros Hlen compatible. subst compatible. split.
  - intros Hc.
    destruct (@update_statistics_ok _ _ self x Hlen) as [self' Hu]; [tauto|].
    destruct (update_statistics_frame _ _ Hu) as (Hm & Hv & _).
    destruct (@sparsify_ok _ _ self' x) as (out & Hs & _).
    { congruence. }
    { rewrite Hm. tauto. }
    unfold forward. now rewrite Hu, Hs.
  - intros Hn. unfold forward, update_statistics.
    destruct (Z.eqb_spec (flag_update_statistics self) 0) as [Hf|Hf].
    + rewrite sparsify_raises; [reflexivity| | |]; intro; apply Hn; tauto.
    + rewrite iadd_raises; [reflexivity| |];
        rewrite length_map, length_reduce_023; intro; apply Hn; tauto.
Qed.

(** X2.  Whatever the input and whatever the outcome, [forward] keeps the
    lengths of [running_mean] and [running_var] and the values of
    [threshold], [flag_update_statistics], [batch_num], [bias] and [crop]. *)
Theorem MeanSparse_forward_keeps_buffer_shapes
        (self : MeanSparse.t R) (x : tensor4 R) :
  let self' := fst (forward self x) in
  length (running_mean self') = length (running_mean self) /\
  length (running_var self') = length (running_var self) /\
  threshold self' = threshold self /\
  flag_update_statistics self' = flag_update_statistics self /\
  batch_num self' = batch_num self /\
  bias self' = bias self /\ crop self' = crop self.
Proof.
  cbv zeta. unfold forward, update_statistics.
  destruct (Z.eqb (flag_update_statistics self) 0); [cbn; tauto|].
  destruct (iadd (running_mean self) _) as [rm|e] eqn:E1; [|cbn; tauto].
  apply iadd_length in E1. cbn.
  destruct (iadd (running_var self) _) as [rv|e] eqn:E2; cbn; [|tauto].
  apply iadd_length in E2. tauto.
Qed.

End MeanSparseEdges.

Section MeanSparseBatches.
Context {R : Type} {SR : Scalar R}.

Import MeanSparse.

Lemma channel_values_empty (x : tensor4 R) (c : nat) :
  dimN x = 0%nat \/ dimH x = 0%nat \/ dimW x = 0%nat ->
  channel_values x c = [].
Proof.
  unfold channel_values. intros [E|[E|E]]; rewrite E.
  - reflexivity.
  - cbn. induction (seq 0 (dimN x)); cbn; auto.
  - cbn. induction (seq 0 (dimN x)) as [|n l IH]; [reflexivity|].
    cbn. rewrite IH, app_nil_r.
    induction (seq 0 (dimH x)); cbn; auto.
Qed.

(** With the flag on and matching channel counts the update returns, and
    adds to each entry the reduction of its channel over [batch_num]. *)
Lemma update_statistics_same_channels (self : MeanSparse.t R) (x : tensor4 R) :
  flag_update_statistics self <> 0 ->
  dimC x = length (running_mean self) ->
  dimC x = length (running_var self) ->
  exists self',
    update_statistics self x = (self', Ok tt) /\
    forall c, (c < dimC x)%nat ->
      nth c (running_mean self') rzero =
      radd (nth c (running_mean self) rzero)
           (rdiv (tmean (channel_values x c)) (batch_num self)) /\
      nth c (running_var self') rzero =
      radd (nth c (running_var self) rzero)
           (rdiv (tvar (channel_values x c)) (batch_num self)).
Proof.
  intros Hf Hm Hv. unfold update_statistics.
  destruct (Z.eqb_spec (flag_update_statistics self) 0); [contradiction|].
  destruct (iadd (running_mean self) _) as [rm|e] eqn:E1.
  2:{ rewrite iadd_same_length in E1
        by (now rewrite length_map, length_reduce_023).
      discriminate. }
  cbn.
  destruct (iadd (running_var self) _) as [rv|e] eqn:E2.
  2:{ rewrite iadd_same_length in E2
        by (now rewrite length_map, length_reduce_023).
      discriminate. }
  eexists. split; [reflexivity|]. cbn. intros c Hc. split.
  - now apply (nth_iadd_scaled tmean _ _ _ (eq_sym Hm) E1).
  - now apply (nth_iadd_scaled tvar _ _ _ (eq_sym Hv) E2).
Qed.

(** X3.  A calibration step on an empty batch (no sample, or no row, or no
    column) still updates the statistics: every entry of [running_mean]
    (resp. [running_var]) gets the mean (resp. variance) of no values at all,
    divided by [batch_num], added. *)
Theorem MeanSparse_forward_empty_batch
        (self : MeanSparse.t R) (x : tensor4 R) :
  flag_update_statistics self <> 0 ->
  dimC x = length (running_mean self) ->
  dimC x = length (running_var self) ->
  dimN x = 0%nat \/ dimH x = 0%nat \/ dimW x = 0%nat ->
  forall c, (c < dimC x)%nat ->
    nth c (running_mean (fst (forward self x))) rzero =
    radd (nth c (running_mean self) rzero) (rdiv (tmean []) (batch_num self)) /\
    nth c (running_var (fst (forward self x))) rzero =
    radd (nth c (running_var self) rzero) (rdiv (tvar []) (batch_num self)).
Proof.
  intros Hf Hm Hv He c Hc.
  destruct (update_statistics_same_channels self x Hf Hm Hv) as (s & Hu & Hn).
  unfold forward. rewrite Hu. cbn.
  rewrite <- (channel_values_empty x c He). now apply Hn.
Qed.

(** X4.  An input of one channel is not rejected by a MeanSparse over C
    channels: with a nonzero threshold it is expanded, and the result has C
    channels; with [threshold == 0] it is returned as it is, with its one
    channel. *)
Theorem MeanSparse_forward_expands_single_channel
        (self : MeanSparse.t R) (x : tensor4 R) :
  length (running_var self) = length (running_mean self) ->
  dimC x = 1%nat ->
  exists out,
    snd (forward self x) = Ok out /\
    (req0 (threshold self) = true -> out = x) /\
    (req0 (threshold self) = false ->
     dimC out = length (running_mean self) /\
     dimN out = dimN x /\ dimH out = dimH x /\ dimW out = dimW x).
Proof.
  intros Hlen Hc.
  destruct (@update_statistics_ok _ _ self x Hlen) as [self' Hu]; [tauto|].
  destruct (update_statistics_frame _ _ Hu) as (Hm & Hv & Ht & _).
  destruct (@sparsify_ok _ _ self' x) as (out & Hs & H0 & H1).
  { congruence. }
  { tauto. }
  exists out. unfold forward. rewrite Hu. cbn. rewrite <- Ht.
  split; [exact Hs|]. split; [exact H0|].
  intros Hthr. destruct (H1 Hthr) as (HN & HH & HW & HC & _).
  rewrite Hc, bdim_1_l, Hm in HC. injection HC as HC. auto.
Qed.

End MeanSparseBatches.

(** ** MeanSparse.forward: the calibration update *)

Section MeanSparseCalibration.
Context {R : Type} {SR : Scalar R}.

Import MeanSparse.

(** [self += [v]]: the one entry is added to every entry of [self]. *)
Lemma iadd_singleton (a : list R) (v : R) :
  exists r, iadd a [v] = Ok r /\ length r = length a /\
            forall c, (c < length a)%nat ->
                      nth c r rzero = radd (nth c a rzero) v.
Proof.
  unfold iadd. cbn [length].
  destruct (Nat.eqb_spec 1 (length a)) as [E|E].
  - destruct a as [|a0 [|? ?]]; try discriminate E.
    eexists. split; [reflexivity|]. split; [reflexivity|].
    intros c Hc. cbn in Hc. destruct c; [reflexivity|lia].
  - eexists. split; [reflexivity|]. split; [apply length_map|].
    intros c Hc.
    rewrite (nth_indep _ rzero ((fun a => radd a v) rzero))
      by (now rewrite length_map).
    now rewrite (map_nth (fun a => radd a v)).
Qed.

Lemma reduce_023_single_channel {B : Type} (red : list R -> B) (x : tensor4 R) :
  dimC x = 1%nat -> reduce_023 red x = [red (channel_values x 0)].
Proof. unfold reduce_023. intros ->. reflexivity. Qed.

(** C2 (as amended).  With the calibration flag off, [forward] leaves every
    buffer as it was, whatever the input.  With the flag on and an input of
    as many channels as the buffers have entries, it adds to each entry of
    [running_mean] (resp. [running_var]) the mean (resp. variance) of that
    channel over batch, height and width, divided by [batch_num]; on an
    input of one channel it adds that channel's mean (resp. variance) over
    [batch_num] to every entry; in both cases [threshold],
    [flag_update_statistics] and [batch_num] stay as they were.  With the
    flag on and a channel count that is neither the length of
    [running_mean] nor 1, it raises and leaves every buffer as it was. *)
Theorem MeanSparse_forward_statistics :
  (forall (self : MeanSparse.t R) (x : tensor4 R),
      flag_update_statistics self = 0 -> fst (forward self x) = self) /\
  (forall (self : MeanSparse.t R) (x : tensor4 R),
      flag_update_statistics self <> 0 ->
      dimC x = length (running_mean self) ->
      dimC x = length (running_var self) ->
      let self' := fst (forward self x) in
      length (running_mean self') = dimC x /\
      length (running_var self') = dimC x /\
      (forall c, (c < dimC x)%nat ->
         nth c (running_mean self') rzero =
         radd (nth c (running_mean self) rzero)
              (rdiv (tmean (channel_values x c)) (batch_num self))) /\
      (forall c, (c < dimC x)%nat ->
         nth c (running_var self') rzero =
         radd (nth c (running_var self) rzero)
              (rdiv (tvar (channel_values x c)) (batch_num self))) /\
      threshold self' = threshold self /\
      flag_update_statistics self' = flag_update_statistics self /\
      batch_num self' = batch_num self) /\
  (forall (self : MeanSparse.t R) (x : tensor4 R),
      flag_update_statistics self <> 0 ->
      dimC x = 1%nat ->
      let self' := fst (forward self x) in
      length (running_mean self') = length (running_mean self) /\
      length (running_var self') = length (running_var self) /\
      (forall c, (c < length (running_mean self))%nat ->
         nth c (running_mean self') rzero =
         radd (nth c (running_mean self) rzero)
              (rdiv (tmean (channel_values x 0)) (batch_num self))) /\
      (forall c, (c < length (running_var self))%nat ->
         nth c (running_var self') rzero =
         radd (nth c (running_var self) rzero)
              (rdiv (tvar (channel_values x 0)) (batch_num self))) /\
      threshold self' = threshold self /\
      flag_update_statistics self' = flag_update_statistics self /\
      batch_num self' = batch_num self) /\
  (forall (self : MeanSparse.t R) (x : tensor4 R),
      flag_update_statistics self <> 0 ->
      dimC x <> length (running_mean self) ->
      dimC x <> 1%nat ->
      forward self x = (self, Raise RuntimeError)).
Proof.
  assert (Hfst : forall (self : MeanSparse.t R) x,
             fst (forward self x) = fst (update_statistics self x)).
  { intros self x. unfold forward.
    destruct (update_statistics self x) as [s [u|e]]; reflexivity. }
  split; [|split; [|split]].
  - intros self x Hf. rewrite Hfst.
    now rewrite (update_statistics_flag0 _ _ Hf).
  - intros self x Hf Hm Hv self'. subst self'. rewrite Hfst.
    destruct (update_statistics_same_channels self x Hf Hm Hv)
      as (s & Hu & Hn).
    destruct (update_statistics_frame _ _ Hu) as (Lm & Lv & Ht & Hfl & Hb).
    rewrite Hu. cbn.
    repeat split; try congruence; intros c Hc; now apply Hn.
  - intros self x Hf Hc self'. subst self'. rewrite Hfst.
    unfold update_statistics.
    destruct (Z.eqb_spec (flag_update_statistics self) 0); [contradiction|].
    rewrite !(reduce_023_single_channel _ _ Hc). cbn [map].
    destruct (iadd_singleton (running_mean self)
                (rdiv (tmean (channel_values x 0)) (batch_num self)))
      as (rm & Erm & Lrm & Nrm).
    rewrite Erm. cbn.
    destruct (iadd_singleton (running_var self)
                (rdiv (tvar (channel_values x 0)) (batch_num self)))
      as (rv & Erv & Lrv & Nrv).
    rewrite Erv. cbn. repeat split; assumption.
  - intros self x Hf H1 H2. unfold forward, update_statistics.
    destruct (Z.eqb_spec (flag_update_statistics self) 0); [contradiction|].
    rewrite iadd_raises; [reflexivity| |];
      now rewrite length_map, length_reduce_023.
Qed.

End MeanSparseCalibration.

Lemma MeanSparse_forward_statistics_witness :
  MeanSparse.flag_update_statistics ms_calibrated = 0 /\
  fst (MeanSparse.forward ms_calibrated x_1212) = ms_calibrated /\
  MeanSparse.flag_update_statistics ms_calibrating <> 0 /\
  dimC x_1212 = length (MeanSparse.running_mean ms_calibrating) /\
  dimC x_1212 = length (MeanSparse.running_var ms_calibrating) /\
  nth 1 (MeanSparse.running_mean (fst (MeanSparse.forward ms_calibrating x_1212)))
      rzero
  = radd (nth 1 (MeanSparse.running_mean ms_calibrating) rzero)
         (rdiv (tmean (channel_values x_1212 1))
               (MeanSparse.batch_num ms_calibrating)) /\
  dimC (full 1 1 2 2 3) = 1%nat /\
  nth 1 (MeanSparse.running_mean
           (fst (MeanSparse.forward ms_calibrating (full 1 1 2 2 3)))) rzero
  = radd (nth 1 (MeanSparse.running_mean ms_calibrating) rzero)
         (rdiv (tmean (channel_values (full 1 1 2 2 3) 0))
               (MeanSparse.batch_num ms_calibrating)).
Proof.
  pose proof (@MeanSparse_forward_statistics Z ZScalar) as (H0 & H1 & H2 & _).
  split; [reflexivity|].
  split; [apply H0; reflexivity|].
  assert (Hf : MeanSparse.flag_update_statistics ms_calibrating <> 0)
    by (cbn; lia).
  split; [exact Hf|]. split; [reflexivity|]. split; [reflexivity|].
  split.
  - destruct (H1 ms_calibrating x_1212 Hf eq_refl eq_refl)
      as (_ & _ & Hm & _).
    apply Hm. cbn. lia.
  - split; [reflexivity|].
    destruct (H2 ms_calibrating (full 1 1 2 2 3) Hf eq_refl)
      as (_ & _ & Hm & _).
    apply Hm. cbn. lia.
Defined.

(** C2, as stated, fails: with the flag on and an input of three channels
    against buffers of two entries, [running_mean += ...] raises and nothing
    is added. *)
Lemma MeanSparse_forward_statistics_not_added :
  MeanSparse.flag_update_statistics ms_calibrating <> 0 /\
  MeanSparse.forward ms_calibrating (full 1 3 2 2 7)
  = (ms_calibrating, Raise RuntimeError) /\
  MeanSparse.running_mean
    (fst (MeanSparse.forward ms_calibrating (full 1 3 2 2 7)))
  = MeanSparse.running_mean ms_calibrating.
Proof. repeat split. cbn. lia. Qed.

(** ** The live sparsification and the commented-out custom function *)

Section TwoVariants.
Context {R : Type} {SR : Scalar R}.

Import MeanSparse.

(** X5.  On an input whose channel count agrees with the buffers, lines
    106-114 of the live [forward] compute the tensor that the commented-out
    [MeanSparseFunction2D.forward] computes from the same input, bias, crop
    and threshold: the same shape and the same entries. *)
Theorem sparsify_agrees_with_MeanSparseFunction2D
        (L : ScalarLaws R) (self : MeanSparse.t R) (x : tensor4 R) :
  length (running_var self) = length (running_mean self) ->
  (dimC x = length (running_mean self) \/ dimC x = 1%nat \/
   length (running_mean self) = 1%nat) ->
  result_eq
    (sparsify self x)
    (MeanSparseFunction2D.forward
       x
       (view_1C11 rzero (running_mean self))
       (tmap (rmul (threshold self))
             (view_1C11 rzero (map rsqrt (running_var self))))
       (threshold self)).
Proof.
  intros Hlen Hc.
  destruct (bdim_compat Hc) as (co & B1 & B2 & B3 & B4).
  unfold sparsify, MeanSparseFunction2D.forward, tmap2, torch_where,
    shape, bshape. cbn.
  rewrite length_map, Hlen, !bdim_1_r, B1. cbn.
  destruct (req0 (threshold self)) eqn:Hthr.
  - apply tensor_eq_refl.
  - repeat (cbn; first [ rewrite bdim_1_r | rewrite bdim_1_l | rewrite bdim_refl
                       | rewrite B2 | rewrite B3 | rewrite B4 ]).
    cbn. split; [reflexivity|]. cbn.
    intros n c h w Hn Hc' Hh Hw.
    unfold bget. cbn.
    rewrite !(bix_lt Hn), !(bix_lt Hh), !(bix_lt Hw), !(bix_lt Hc').
    rewrite rmul_one_r. reflexivity.
Qed.

End TwoVariants.

(** ** _Block.forward: the calls it makes and the state it keeps *)

Section BlockCalls.
Context {R : Type} {SR : Scalar R} {T : Torch R}.

Import _Block.

Lemma block_forward_log (b b' : _Block.t R) (x out : tensor4 R) (l : list event) :
  forward x b = (b', l, Ok out) ->
  l = [Call "batchnorm_0" BatchNorm2dC; Call "meansparse_0" MeanSparseC;
       Call "relu_0" ActivationC; Call "conv_0" Conv2dC;
       Call "batchnorm_1" BatchNorm2dC; Call "meansparse_1" MeanSparseC;
       Call "relu_1" ActivationC; Call "conv_1" Conv2dC]
      ++ (if has_shortcut b then [Call "shortcut" Conv2dC] else [])
      ++ [Call "meansparse_2" MeanSparseC].
Proof.
  unfold forward, preactivate, convolve. run_forward.
  repeat (case_scrutinee; cbn); intros H;
    (first [ discriminate H | injection H as ? ? ? ]); subst;
    first [ discriminate | reflexivity ].
Qed.

(** X6.  A completed [_Block.forward] has called, in this order,
    [batchnorm_0], [meansparse_0], [relu_0], [conv_0], [batchnorm_1],
    [meansparse_1], [relu_1], [conv_1], then [shortcut] exactly when the
    block has one, then [meansparse_2]; nothing else. *)
Theorem Block_forward_call_order
        (b b' : _Block.t R) (x out : tensor4 R) (l : list event) :
  forward x b = (b', l, Ok out) ->
  l = [Call "batchnorm_0" BatchNorm2dC; Call "meansparse_0" MeanSparseC;
       Call "relu_0" ActivationC; Call "conv_0" Conv2dC;
       Call "batchnorm_1" BatchNorm2dC; Call "meansparse_1" MeanSparseC;
       Call "relu_1" ActivationC; Call "conv_1" Conv2dC]
      ++ (if has_shortcut b then [Call "shortcut" Conv2dC] else [])
      ++ [Call "meansparse_2" MeanSparseC].
Proof.
  intros Hfwd.
  assert (Hpre : exists b1 l1 pre, preactivate x b = (b1, l1, Ok pre)).
  { destruct (preactivate x b) as [[b1 l1] [pre|e]] eqn:Hp; [eauto|].
    rewrite (forward_preactivate_raises _ _ Hp) in Hfwd. discriminate Hfwd. }
  destruct Hpre as (b1 & l1 & pre & Hp).
  destruct (preactivate_frame _ _ Hp) as (Hs & _).
  rewrite (forward_after_preactivate _ _ Hp) in Hfwd.
  revert Hp Hfwd. unfold preactivate, resume, convolve. run_forward.
  repeat (case_scrutinee; cbn); intros H1 H2;
    (first [ discriminate H1 | injection H1 as ? ? ? ]);
    (first [ discriminate H2 | injection H2 as ? ? ? ]); subst; cbn in *;
    first [ discriminate | congruence | reflexivity ].
Qed.

Lemma MeanSparse_forward_flag0 (self s : MeanSparse.t R) (x : tensor4 R)
      (r : result (tensor4 R)) :
  MeanSparse.flag_update_statistics self = 0 ->
  MeanSparse.forward self x = (s, r) -> s = self.
Proof.
  intros Hf. unfold MeanSparse.forward.
  rewrite (update_statistics_flag0 _ _ Hf). now intros [= <- _].
Qed.

Lemma block_forward_frame (b b' : _Block.t R) (x : tensor4 R)
      (l : list event) (r : result (tensor4 R)) :
  forward x b = (b', l, r) ->
  has_shortcut b' = has_shortcut b /\ shortcut b' = shortcut b /\
  _stride b' = _stride b /\ conv_0 b' = conv_0 b /\ conv_1 b' = conv_1 b /\
  relu_0 b' = relu_0 b /\ relu_1 b' = relu_1 b /\
  (Forall (fun ms => MeanSparse.flag_update_statistics ms = 0)
          (block_meansparse b) ->
   block_meansparse b' = block_meansparse b).
Proof.
  unfold forward, preactivate, convolve, block_meansparse. run_forward.
  repeat (case_scrutinee; cbn); intros H; injection H as ? ? ?; subst; cbn;
    (do 7 (split; [congruence|])); intros HF;
    inversion HF as [|? ? F0 HF1]; subst;
    inversion HF1 as [|? ? F1 HF2]; subst;
    inversion HF2 as [|? ? F2 _]; subst;
    repeat match goal with
           | E : MeanSparse.forward (meansparse_0 b) _ = _ |- _ =>
               apply (MeanSparse_forward_flag0 _ _ F0) in E
           | E : MeanSparse.forward (meansparse_1 b) _ = _ |- _ =>
               apply (MeanSparse_forward_flag0 _ _ F1) in E
           | E : MeanSparse.forward (meansparse_2 b) _ = _ |- _ =>
               apply (MeanSparse_forward_flag0 _ _ F2) in E
           end; subst; reflexivity.
Qed.

(** X7.  Whatever its outcome, [_Block.forward] leaves [conv_0], [conv_1],
    [shortcut], [has_shortcut], [_stride] and the two activations of the
    block as they were; and when the calibration flag of its three MeanSparse
    layers is off, it leaves these three layers as they were too. *)
Theorem Block_forward_keeps_configuration
        (b : _Block.t R) (x : tensor4 R) :
  let b' := fst (fst (forward x b)) in
  has_shortcut b' = has_shortcut b /\ shortcut b' = shortcut b /\
  _stride b' = _stride b /\ conv_0 b' = conv_0 b /\ conv_1 b' = conv_1 b /\
  relu_0 b' = relu_0 b /\ relu_1 b' = relu_1 b /\
  (Forall (fun ms => MeanSparse.flag_update_statistics ms = 0)
          (block_meansparse b) ->
   block_meansparse b' = block_meansparse b).
Proof.
  cbv zeta. destruct (forward x b) as [[b' l] r] eqn:E. cbn.
  exact (block_forward_frame _ _ E).
Qed.

End BlockCalls.

(** ** Construction of groups and layers *)

Section Construction.
Context {R : Type} {SR : Scalar R} {T : Torch R}.

Lemma mapM_nth_error {A B : Type} (f : A -> result B) (l : list A)
      (r : list B) (k : nat) (b : B) :
  mapM f l = Ok r -> nth_error r k = Some b ->
  exists a, nth_error l k = Some a /\ f a = Ok b.
Proof.
  revert r k. induction l as [|a l IH]; intros r k.
  - intros [= <-]. destruct k; discriminate.
  - cbn. destruct (f a) as [b0|e] eqn:Ea; [|discriminate]. cbn.
    destruct (mapM f l) as [bs|e] eqn:El; [|discriminate]. cbn.
    intros [= <-]. destruct k as [|k]; cbn.
    + intros [= <-]. eauto.
    + intros Hk. exact (IH bs k eq_refl Hk).
Qed.

Lemma block_init_fields (i o s : Z) (fn : ActivationFn) (b : _Block.t R) :
  _Block.__init__ i o s fn = Ok b ->
  _Block.has_shortcut b = negb (i =? o) /\
  _Block._stride b = s /\
  (_Block.has_shortcut b = false -> _Block.shortcut b = None) /\
  (_Block.has_shortcut b = true -> _Block.shortcut b <> None) /\
  Forall is_fresh (block_meansparse b).
Proof.
  unfold _Block.__init__, MeanSparse.__init__, MeanSparse.torch_zeros, rbind.
  repeat (case_scrutinee; try discriminate); intros [= <-]; cbn;
    repeat split; try congruence;
    repeat constructor; eexists; reflexivity.
Qed.

(** X8.  A group that [_BlockGroup.__init__] has built holds [num_blocks]
    blocks (none when [num_blocks] is not positive), and every block after
    the first has no shortcut convolution and stride 1. *)
Theorem BlockGroup_later_blocks_plain
        (num_blocks in_planes out_planes stride : Z) (fn : ActivationFn)
        (g : _BlockGroup.t R) :
  _BlockGroup.__init__ num_blocks in_planes out_planes stride fn = Ok g ->
  length (_BlockGroup.block g) = Z.to_nat num_blocks /\
  forall (k : nat) (b : _Block.t R),
    (1 <= k)%nat -> nth_error (_BlockGroup.block g) k = Some b ->
    _Block.has_shortcut b = false /\ _Block.shortcut b = None /\
    _Block._stride b = 1.
Proof.
  unfold _BlockGroup.__init__, rbind.
  destruct (mapM _ _) as [bl|e] eqn:E; [|discriminate].
  intros [= <-]. cbn. split.
  - apply mapM_length in E. now rewrite E, length_seq.
  - intros k b Hk Hb.
    destruct (mapM_nth_error _ _ _ E Hb) as (i & Hi & Hinit).
    assert (Hlt : (k < length (seq 0 (Z.to_nat num_blocks)))%nat)
      by (apply nth_error_Some; congruence).
    rewrite length_seq in Hlt.
    assert (Hii : i = k).
    { pose proof (nth_error_nth _ _ 0%nat Hi) as Hn.
      rewrite seq_nth in Hn by exact Hlt. lia. }
    subst i. destruct k as [|k]; [lia|]. cbn in Hinit.
    destruct (block_init_fields _ _ _ _ Hinit) as (Hs & Hst & Hnone & _).
    rewrite Z.eqb_refl in Hs. cbn in Hs. auto.
Qed.

(** X9.  With [num_blocks <= 0] the group is built with no block at all, and
    the forward pass of a group without blocks returns its input as it is
    without calling anything. *)
Theorem BlockGroup_without_blocks
        (num_blocks in_planes out_planes stride : Z) (fn : ActivationFn) :
  num_blocks <= 0 ->
  _BlockGroup.__init__ (R := R) num_blocks in_planes out_planes stride fn
  = Ok (_BlockGroup.mk []) /\
  forall x : tensor4 R,
    _BlockGroup.forward x (_BlockGroup.mk []) = (_BlockGroup.mk [], [], Ok x).
Proof.
  intros Hn. split.
  - unfold _BlockGroup.__init__.
    replace (Z.to_nat num_blocks) with 0%nat by lia. reflexivity.
  - intros x. reflexivity.
Qed.

(** X10.  [_make_layer] builds [max(num_blocks, 1)] blocks: also for
    [num_blocks <= 0] the layer has one block, built with the given
    stride. *)
Theorem make_layer_has_a_block
        (in_planes out_planes num_blocks stride : Z) (fn : ActivationFn) :
  (forall l : list (_PreActBlock.t R),
      DMPreActResNet._make_layer in_planes out_planes num_blocks stride fn
      = Ok l ->
      length l = Z.to_nat (Z.max num_blocks 1)) /\
  (num_blocks <= 1 ->
   DMPreActResNet._make_layer (R := R) in_planes out_planes num_blocks stride fn
   = rbind (_PreActBlock.__init__ (and_or true in_planes out_planes)
                                  out_planes stride fn)
           (fun b => Ok [b])).
Proof.
  split.
  - intros l Hl. rewrite (_make_layer_length _ _ _ _ _ Hl). lia.
  - intros Hn. unfold DMPreActResNet._make_layer.
    replace (Z.to_nat (num_blocks - 1)) with 0%nat by lia. cbn.
    destruct (_PreActBlock.__init__ _ _ _ _); reflexivity.
Qed.

(** X11.  [_PreActBlock.forward] never returns for a stride other than 1 and
    2, whatever the input. *)
Theorem PreActBlock_forward_unsupported_stride
        (pb : _PreActBlock.t R) (x : tensor4 R) :
  _PreActBlock._stride pb <> 1 -> _PreActBlock._stride pb <> 2 ->
  is_ok (snd (_PreActBlock.forward x pb)) = false.
Proof.
  intros H1 H2.
  unfold _PreActBlock.forward, _PreActBlock._pad. run_forward.
  destruct (Z.eqb_spec (_PreActBlock._stride pb) 1); [contradiction|].
  destruct (Z.eqb_spec (_PreActBlock._stride pb) 2); [contradiction|].
  repeat (case_scrutinee; cbn; try reflexivity).
Qed.

End Construction.

(** ** Whole networks *)

Lemma calls_of_app (k : cls) (l1 l2 : list event) :
  calls_of k (l1 ++ l2) = (calls_of k l1 + calls_of k l2)%nat.
Proof. unfold calls_of. now rewrite filter_app, length_app. Qed.

Lemma sequential_frame {M A B : Type} (fwd : A -> Fwd M A) (proj : M -> B)
      (P : M -> Prop) :
  (forall m x m' l r, P m -> fwd x m = (m', l, r) -> proj m' = proj m) ->
  forall ms x ms' l r,
    Forall P ms -> sequential fwd x ms = (ms', l, r) ->
    map proj ms' = map proj ms.
Proof.
  intros H. induction ms as [|m ms IH]; intros x ms' l r HP.
  - cbn. now intros [= <- _ _].
  - inversion HP as [|? ? Pm Pms]; subst. cbn.
    destruct (fwd x m) as [[m1 l1] [y|e]] eqn:E.
    + destruct (sequential fwd y ms) as [[rest1 l2] r2] eqn:Es.
      intros [= <- _ _]. cbn.
      now rewrite (H _ _ _ _ _ Pm E), (IH _ _ _ _ Pms Es).
    + intros [= <- _ _]. cbn. now rewrite (H _ _ _ _ _ Pm E).
Qed.

Lemma sequential_calls {M A : Type} (fwd : A -> Fwd M A) (k : cls)
      (w : M -> nat) :
  (forall m x m' l y, fwd x m = (m', l, Ok y) -> calls_of k l = w m) ->
  forall ms x ms' l y,
    sequential fwd x ms = (ms', l, Ok y) ->
    calls_of k l = list_sum (map w ms).
Proof.
  intros H. induction ms as [|m ms IH]; intros x ms' l y.
  - cbn. now intros [= _ <- _].
  - cbn. destruct (fwd x m) as [[m1 l1] [z|e]] eqn:E; [|discriminate].
    destruct (sequential fwd z ms) as [[rest1 l2] r2] eqn:Es.
    intros [= _ <- ->]. rewrite calls_of_app, (H _ _ _ _ _ E), (IH _ _ _ _ Es).
    reflexivity.
Qed.

Lemma sequential_no_calls {M A : Type} (fwd : A -> Fwd M A) (k : cls) :
  (forall m x, calls_of k (snd (fst (fwd x m))) = 0%nat) ->
  forall ms x, calls_of k (snd (fst (sequential fwd x ms))) = 0%nat.
Proof.
  intros H. induction ms as [|m ms IH]; intros x; [reflexivity|].
  cbn [sequential]. pose proof (H m x) as Hm.
  destruct (fwd x m) as [[m1 l1] [z|e]]; cbn [fst snd] in Hm |- *;
    [|exact Hm].
  pose proof (IH z) as Hz.
  destruct (sequential fwd z ms) as [[rest1 l2] r2]. cbn [fst snd] in Hz |- *.
  rewrite calls_of_app. lia.
Qed.

Lemma sequential_length {M A : Type} (fwd : A -> Fwd M A) :
  forall ms x, length (fst (fst (sequential fwd x ms))) = length ms.
Proof.
  induction ms as [|m ms IH]; intros x; [reflexivity|].
  cbn. destruct (fwd x m) as [[m1 l1] [z|e]]; [|reflexivity].
  pose proof (IH z) as Hz.
  destruct (sequential fwd z ms) as [[rest1 l2] r2]. cbn in Hz |- *.
  now rewrite Hz.
Qed.

Lemma mapM_Forall {A B : Type} (f : A -> result B) (P : B -> Prop)
      (l : list A) (r : list B) :
  (forall a b, f a = Ok b -> P b) -> mapM f l = Ok r -> Forall P r.
Proof.
  intros H. revert r. induction l as [|a l IH]; intros r.
  - intros [= <-]. constructor.
  - cbn. destruct (f a) as [b|e] eqn:Ea; [|discriminate]. cbn.
    destruct (mapM f l) as [bs|e] eqn:El; [|discriminate]. cbn.
    intros [= <-]. constructor; eauto.
Qed.

Section Networks.
Context {R : Type} {SR : Scalar R} {T : Torch R}.

Lemma group_init_fresh (n i o s : Z) (fn : ActivationFn) (g : _BlockGroup.t R) :
  _BlockGroup.__init__ n i o s fn = Ok g ->
  Forall is_fresh (group_meansparse g) /\
  length (group_meansparse g) = (3 * Z.to_nat n)%nat.
Proof.
  intros Hg. pose proof (_BlockGroup_init_length _ _ _ _ _ Hg) as Hl.
  revert Hg. unfold _BlockGroup.__init__, rbind.
  destruct (mapM _ _) as [bl|e] eqn:E; [|discriminate].
  intros [= <-]. cbn in Hl. unfold group_meansparse. cbn. split.
  - apply Forall_flat_map.
    eapply mapM_Forall; [|exact E]. cbn. intros a b Hb.
    now destruct (block_init_fields _ _ _ _ Hb) as (_ & _ & _ & _ & Hf).
  - rewrite <- Hl. clear. induction bl as [|b bl IH]; [reflexivity|].
    cbn. rewrite IH. lia.
Qed.

(** X12.  A network that [DMWideResNet.__init__] has built has a
    non-negative width, [num_channels] equal to 64 times the width,
    [max((depth - 4) // 6, 0)] blocks in each of its three groups
    ([Z.to_nat] is 0 on negative numbers), three MeanSparse layers per block
    and one at the end, and every one of these MeanSparse layers is in the
    state of a fresh [MeanSparse]. *)
Theorem DMWideResNet_init_meansparse_fresh
        (num_classes depth width : Z) (fn : ActivationFn) (mean std : list R)
        (padding num_input_channels : Z) (m : DMWideResNet.t R) :
  DMWideResNet.__init__ num_classes depth width fn mean std padding
                        num_input_channels = Ok m ->
  0 <= width /\
  DMWideResNet.num_channels m = 64 * width /\
  DMWideResNet.padding m = padding /\
  wrn_blocks m = (3 * Z.to_nat ((depth - 4) / 6))%nat /\
  length (wrn_meansparse m) = (9 * Z.to_nat ((depth - 4) / 6) + 1)%nat /\
  Forall is_fresh (wrn_meansparse m).
Proof.
  unfold DMWideResNet.__init__, rbind.
  destruct (view_C11 mean num_input_channels); [|discriminate].
  destruct (view_C11 std num_input_channels); [|discriminate].
  destruct ((depth - 4) mod 6 =? 0); [|discriminate].
  destruct (Conv2d_new num_input_channels 16 3 1 1 false); [|discriminate].
  destruct (_BlockGroup.__init__ _ 16 _ 1 fn) as [g0|] eqn:E0; [|discriminate].
  destruct (_BlockGroup.__init__ _ (16 * width) _ 2 fn) as [g1|] eqn:E1;
    [|discriminate].
  destruct (_BlockGroup.__init__ _ (32 * width) _ 2 fn) as [g2|] eqn:E2;
    [|discriminate].
  destruct (BatchNorm2d_new (64 * width)); [|discriminate].
  unfold MeanSparse.__init__, MeanSparse.torch_zeros, rbind.
  destruct (Z.ltb_spec (64 * width) 0) as [|Hw]; [discriminate|].
  destruct (Activation_new fn); [|discriminate].
  destruct (Linear_new (64 * width) num_classes); [|discriminate].
  intros [= <-].
  destruct (group_init_fresh _ _ _ _ _ E0) as (F0 & L0).
  destruct (group_init_fresh _ _ _ _ _ E1) as (F1 & L1).
  destruct (group_init_fresh _ _ _ _ _ E2) as (F2 & L2).
  apply _BlockGroup_init_length in E0, E1, E2.
  unfold wrn_blocks, wrn_meansparse. cbn.
  rewrite app_nil_r, !length_app, L0, L1, L2, E0, E1, E2.
  split; [lia|]. split; [reflexivity|]. split; [reflexivity|].
  split; [lia|]. split; [cbn; lia|].
  repeat (apply Forall_app; split); try assumption;
    repeat constructor. eexists. reflexivity.
Qed.

End Networks.

Section NetworkForward.
Context {R : Type} {SR : Scalar R} {T : Torch R}.

Lemma group_forward_frame (g g' : _BlockGroup.t R) (x : tensor4 R)
      (l : list event) (r : result (tensor4 R)) :
  Forall calibration_off (group_meansparse g) ->
  _BlockGroup.forward x g = (g', l, r) ->
  group_meansparse g' = group_meansparse g.
Proof.
  intros HF. unfold _BlockGroup.forward, zoom.
  destruct (sequential _Block.forward x (_BlockGroup.block g))
    as [[c l1] r1] eqn:E.
  intros [= <- _ _]. unfold group_meansparse. cbn.
  rewrite !flat_map_concat_map. f_equal.
  eapply (@sequential_frame _ _ _ _Block.forward block_meansparse
            (fun b => Forall calibration_off (block_meansparse b)));
    [| |exact E].
  - intros m y m' l' r' Pm Hm.
    destruct (block_forward_frame _ _ Hm) as (_ & _ & _ & _ & _ & _ & _ & H).
    exact (H Pm).
  - now apply Forall_flat_map.
Qed.

Lemma layers_forward_frame (gs gs' : list (_BlockGroup.t R)) (x : tensor4 R)
      (l : list event) (r : result (tensor4 R)) :
  Forall calibration_off (flat_map group_meansparse gs) ->
  sequential _BlockGroup.forward x gs = (gs', l, r) ->
  flat_map group_meansparse gs' = flat_map group_meansparse gs.
Proof.
  intros HF E. rewrite !flat_map_concat_map. f_equal.
  eapply (@sequential_frame _ _ _ _BlockGroup.forward group_meansparse
            (fun g => Forall calibration_off (group_meansparse g)));
    [| |exact E].
  - intros m y m' l' r' Pm Hm. exact (group_forward_frame _ _ Pm Hm).
  - now apply Forall_flat_map.
Qed.

(** X13.  When the calibration flag of every MeanSparse layer of the network
    is off, [DMWideResNet.forward] leaves every MeanSparse layer as it was,
    whatever the input and whatever the outcome. *)
Theorem DMWideResNet_forward_keeps_meansparse
        (m : DMWideResNet.t R) (x : tensor4 R) :
  Forall calibration_off (wrn_meansparse m) ->
  wrn_meansparse (fst (fst (DMWideResNet.forward x m))) = wrn_meansparse m.
Proof.
  unfold wrn_meansparse. intros HF.
  apply Forall_app in HF as [HL HE].
  inversion HE as [|? ? Hend _]; subst.
  unfold DMWideResNet.forward, fbind, fget, flift, call, call_ro, zoom.
  cbv beta iota zeta.
  repeat (case_scrutinee; cbv beta iota zeta); cbn in *; try reflexivity;
    repeat match goal with
           | E : sequential _BlockGroup.forward _ _ = _ |- _ =>
               apply (layers_forward_frame _ _ HL) in E; rewrite E; clear E
           | E : MeanSparse.forward (DMWideResNet.meansparse_end m) _ = _ |- _ =>
               apply (MeanSparse_forward_flag0 _ _ Hend) in E; subst
           end; reflexivity.
Qed.

End NetworkForward.

Section NetworkCalls.
Context {R : Type} {SR : Scalar R} {T : Torch R}.

Lemma list_sum_const {A : Type} (l : list A) (n : nat) :
  list_sum (map (fun _ => n) l) = (n * length l)%nat.
Proof.
  unfold list_sum. induction l as [|a l IH]; cbn; [lia|]. rewrite IH. lia.
Qed.

Lemma group_forward_calls (g g' : _BlockGroup.t R) (x y : tensor4 R)
      (l : list event) :
  _BlockGroup.forward x g = (g', l, Ok y) ->
  calls_of MeanSparseC l = (3 * length (_BlockGroup.block g))%nat.
Proof.
  unfold _BlockGroup.forward, zoom.
  destruct (sequential _Block.forward x (_BlockGroup.block g))
    as [[c l1] r1] eqn:E.
  intros [= _ <- ->].
  rewrite (@sequential_calls _ _ _Block.forward MeanSparseC (fun _ => 3%nat)
             ltac:(intros m z m' l' y' Hm;
                   rewrite (block_forward_log _ _ Hm);
                   destruct (_Block.has_shortcut m); reflexivity)
             _ _ _ _ _ E).
  apply list_sum_const.
Qed.

Lemma list_sum_scale {A : Type} (f : A -> nat) (l : list A) (n : nat) :
  list_sum (map (fun a => (n * f a)%nat) l) = (n * list_sum (map f l))%nat.
Proof.
  unfold list_sum. induction l as [|a l IH]; cbn; [lia|]. rewrite IH. lia.
Qed.

Lemma length_flat_map_sum {A B : Type} (f : A -> list B) (l : list A) :
  length (flat_map f l) = list_sum (map (fun a => length (f a)) l).
Proof.
  unfold list_sum. induction l as [|a l IH]; [reflexivity|].
  cbn. now rewrite length_app, IH.
Qed.

(** X14.  A completed [DMWideResNet.forward] has called MeanSparse three
    times per block of the network and once more at the end. *)
Theorem DMWideResNet_forward_meansparse_calls
        (m m' : DMWideResNet.t R) (x : tensor4 R) (y : Tensor2)
        (l : list event) :
  DMWideResNet.forward x m = (m', l, Ok y) ->
  calls_of MeanSparseC l = (3 * wrn_blocks m + 1)%nat.
Proof.
  unfold DMWideResNet.forward, fbind, fget, flift, call, call_ro, zoom.
  cbv beta iota zeta.
  repeat (case_scrutinee; cbv beta iota zeta); intros H;
    (first [ discriminate H | injection H as ? ? ? ]); subst;
    try discriminate.
  all: unfold calls_of; cbn [filter kind cls_eqb length];
    rewrite filter_app, length_app; cbn [filter kind cls_eqb length].
  all: match goal with
       | |- context [length (filter ?f ?l)] =>
           change (length (filter f l)) with (calls_of MeanSparseC l)
       end.
  all: match goal with
       | E : sequential _BlockGroup.forward _ _ = _ |- _ =>
           rewrite (@sequential_calls _ _ _BlockGroup.forward MeanSparseC
                      (fun g => (3 * length (_BlockGroup.block g))%nat)
                      ltac:(intros g z g' l' y' Hg;
                            exact (group_forward_calls _ _ Hg))
                      _ _ _ _ _ E)
       end.
  all: rewrite list_sum_scale; unfold wrn_blocks;
    rewrite length_flat_map_sum; lia.
Qed.

End NetworkCalls.

Section NetworkEdges.
Context {R : Type} {SR : Scalar R} {T : Torch R}.
Variable view_flat : tensor4 R -> result Tensor2.

Lemma normalise_raises (x : tensor4 R) (p : Z) (mean std : list R) :
  dimC x <> length mean -> dimC x <> 1%nat -> length mean <> 1%nat ->
  (d <- tmap2 rsub
          (if p >? 0
           then F_pad x (Z.to_nat p, Z.to_nat p, Z.to_nat p, Z.to_nat p)
           else x)
          (view_1C11 rzero mean) ;;
   tmap2 rdiv d (view_1C11 rzero std))%py
  = Raise RuntimeError.
Proof.
  intros H1 H2 H3.
  assert (E : forall y : tensor4 R, dimC y = dimC x ->
          tmap2 rsub y (view_1C11 rzero mean) = Raise RuntimeError).
  { intros y Hy. unfold tmap2, shape, bshape. cbn.
    rewrite Hy, (bdim_none H1 H2 H3).
    destruct (bdim (dimN y) 1); reflexivity. }
  destruct (p >? 0); rewrite E; reflexivity.
Qed.

(** X15.  Both networks reject an input whose channel count is neither the
    number of entries of [mean] nor 1 (when [mean] has more than one entry)
    while normalising it: [forward] raises before any layer is called and
    leaves the module as it was. *)
Theorem forward_rejects_channel_mismatch (x : tensor4 R) :
  (forall m : DMWideResNet.t R,
      dimC x <> length (DMWideResNet.mean m) -> dimC x <> 1%nat ->
      length (DMWideResNet.mean m) <> 1%nat ->
      DMWideResNet.forward x m = (m, [], Raise RuntimeError)) /\
  (forall m : DMPreActResNet.t R,
      dimC x <> length (DMPreActResNet.mean m) -> dimC x <> 1%nat ->
      length (DMPreActResNet.mean m) <> 1%nat ->
      DMPreActResNet_forward view_flat x m = (m, [], Raise RuntimeError)).
Proof.
  split; intros m H1 H2 H3.
  - unfold DMWideResNet.forward, fbind, fget, flift. cbv beta iota zeta.
    now rewrite (@normalise_raises x (DMWideResNet.padding m)
                   (DMWideResNet.mean m) (DMWideResNet.std m) H1 H2 H3).
  - unfold DMPreActResNet_forward, fbind, fget, flift. cbv beta iota zeta.
    now rewrite (@normalise_raises x (DMPreActResNet.padding m)
                   (DMPreActResNet.mean m) (DMPreActResNet.std m) H1 H2 H3).
Qed.

Lemma preact_block_no_meansparse (pb : _PreActBlock.t R) (x : tensor4 R) :
  calls_of MeanSparseC (snd (fst (_PreActBlock.forward x pb))) = 0%nat.
Proof.
  unfold _PreActBlock.forward, calls_of. run_forward.
  repeat (case_scrutinee; cbn); reflexivity.
Qed.

(** X16.  [DMPreActResNet.forward] never calls a MeanSparse, whatever the
    module state, the input and the outcome. *)
Theorem DMPreActResNet_forward_calls_no_MeanSparse
        (m : DMPreActResNet.t R) (x : tensor4 R) :
  calls_of MeanSparseC (snd (fst (DMPreActResNet_forward view_flat x m)))
  = 0%nat.
Proof.
  unfold DMPreActResNet_forward, fbind, fget, flift, call, call_ro, zoom.
  cbv beta iota zeta.
  repeat (case_scrutinee; cbv beta iota zeta); cbn [fst snd];
    repeat match goal with
           | E : sequential _PreActBlock.forward ?a ?ms = (_, ?l, _) |- _ =>
               let H := fresh "Hcalls" in
               pose proof (@sequential_no_calls _ _ _PreActBlock.forward
                             MeanSparseC preact_block_no_meansparse ms a) as H;
               rewrite E in H; cbn [fst snd] in H; clear E
           end;
    rewrite ?app_nil_l, ?app_nil_r, ?calls_of_app;
    repeat match goal with
           | H : calls_of MeanSparseC _ = 0%nat |- _ => rewrite H; clear H
           end;
    reflexivity.
Qed.

End NetworkEdges.

(** ** The further properties on concrete modules *)

Example znet_constructed :
  DMWideResNet.__init__ 10 10 1 tt [0; 0; 0] [1; 1; 1] 0 3 = Ok znet.
Proof. vm_compute. reflexivity. Qed.

Example znet_forward_returns :
  is_ok (snd (DMWideResNet.forward x_image znet)) = true.
Proof. vm_compute. reflexivity. Qed.

Lemma MeanSparse_forward_raises_exactly_on_mismatch_witness :
  length (MeanSparse.running_var ms_calibrated)
  = length (MeanSparse.running_mean ms_calibrated) /\
  is_ok (snd (MeanSparse.forward ms_calibrated x_1212)) = true /\
  MeanSparse.forward ms_calibrated (full 1 3 2 2 7)
  = (ms_calibrated, Raise RuntimeError).
Proof.
  assert (Hlen : length (MeanSparse.running_var ms_calibrated)
                 = length (MeanSparse.running_mean ms_calibrated))
    by reflexivity.
  split; [exact Hlen|].
  split.
  - apply (proj1 (@MeanSparse_forward_raises_exactly_on_mismatch
                    Z ZScalar ms_calibrated x_1212 Hlen)).
    left. reflexivity.
  - apply (proj2 (@MeanSparse_forward_raises_exactly_on_mismatch
                    Z ZScalar ms_calibrated (full 1 3 2 2 7) Hlen)).
    cbn. intros [H|[H|[H _]]]; discriminate H.
Defined.

Lemma MeanSparse_forward_empty_batch_witness :
  MeanSparse.flag_update_statistics ms_calibrating <> 0 /\
  dimC (full 0 2 4 4 0) = length (MeanSparse.running_mean ms_calibrating) /\
  dimC (full 0 2 4 4 0) = length (MeanSparse.running_var ms_calibrating) /\
  dimN (full 0 2 4 4 0) = 0%nat /\
  (1 < dimC (full 0 2 4 4 0))%nat /\
  nth 1 (MeanSparse.running_mean
           (fst (MeanSparse.forward ms_calibrating (full 0 2 4 4 0)))) rzero
  = radd (nth 1 (MeanSparse.running_mean ms_calibrating) rzero)
         (rdiv (tmean []) (MeanSparse.batch_num ms_calibrating)).
Proof.
  assert (Hf : MeanSparse.flag_update_statistics ms_calibrating <> 0)
    by (cbn; lia).
  assert (Hc : (1 < dimC (full 0 2 4 4 (0 : Z)))%nat) by (cbn; lia).
  split; [exact Hf|]. do 3 (split; [reflexivity|]). split; [exact Hc|].
  exact (proj1 (@MeanSparse_forward_empty_batch Z ZScalar ms_calibrating
                  (full 0 2 4 4 0) Hf eq_refl eq_refl
                  (or_introl eq_refl) 1%nat Hc)).
Defined.

Lemma MeanSparse_forward_expands_single_channel_witness :
  length (MeanSparse.running_var ms_calibrated)
  = length (MeanSparse.running_mean ms_calibrated) /\
  dimC (full 1 1 2 2 3) = 1%nat /\
  exists out,
    snd (MeanSparse.forward ms_calibrated (full 1 1 2 2 3)) = Ok out /\
    (req0 (MeanSparse.threshold ms_calibrated) = true -> out = full 1 1 2 2 3) /\
    (req0 (MeanSparse.threshold ms_calibrated) = false ->
     dimC out = length (MeanSparse.running_mean ms_calibrated) /\
     dimN out = dimN (full 1 1 2 2 3) /\ dimH out = dimH (full 1 1 2 2 3) /\
     dimW out = dimW (full 1 1 2 2 3)).
Proof.
  do 2 (split; [reflexivity|]).
  exact (@MeanSparse_forward_expands_single_channel Z ZScalar ms_calibrated
           (full 1 1 2 2 3) eq_refl eq_refl).
Defined.

Lemma sparsify_agrees_with_MeanSparseFunction2D_witness :
  length (MeanSparse.running_var ms_calibrated)
  = length (MeanSparse.running_mean ms_calibrated) /\
  dimC x_1212 = length (MeanSparse.running_mean ms_calibrated) /\
  result_eq
    (MeanSparse.sparsify ms_calibrated x_1212)
    (MeanSparseFunction2D.forward
       x_1212
       (view_1C11 rzero (MeanSparse.running_mean ms_calibrated))
       (tmap (rmul (MeanSparse.threshold ms_calibrated))
             (view_1C11 rzero
                        (map rsqrt (MeanSparse.running_var ms_calibrated))))
       (MeanSparse.threshold ms_calibrated)).
Proof.
  do 2 (split; [reflexivity|]).
  exact (@sparsify_agrees_with_MeanSparseFunction2D Z ZScalar ZScalarLaws
           ms_calibrated x_1212 eq_refl (or_introl eq_refl)).
Defined.

Lemma Block_forward_call_order_witness :
  exists b' out l,
    _Block.forward x_1244 zblock_shortcut = (b', l, Ok out) /\
    l = [Call "batchnorm_0" BatchNorm2dC; Call "meansparse_0" MeanSparseC;
         Call "relu_0" ActivationC; Call "conv_0" Conv2dC;
         Call "batchnorm_1" BatchNorm2dC; Call "meansparse_1" MeanSparseC;
         Call "relu_1" ActivationC; Call "conv_1" Conv2dC]
        ++ (if _Block.has_shortcut zblock_shortcut
            then [Call "shortcut" Conv2dC] else [])
        ++ [Call "meansparse_2" MeanSparseC].
Proof.
  destruct (_Block.forward x_1244 zblock_shortcut) as [[b' l] [out|e]] eqn:E;
    [|vm_compute in E; discriminate E].
  exists b', out, l. split; [reflexivity|].
  exact (@Block_forward_call_order Z ZScalar ZTorch
           zblock_shortcut b' x_1244 out l E).
Defined.

Lemma BlockGroup_later_blocks_plain_witness :
  exists g,
    _BlockGroup.__init__ (T := ZTorch) 3 2 4 2 tt = Ok g /\
    length (_BlockGroup.block g) = Z.to_nat 3 /\
    forall (k : nat) (b : _Block.t Z),
      (1 <= k)%nat -> nth_error (_BlockGroup.block g) k = Some b ->
      _Block.has_shortcut b = false /\ _Block.shortcut b = None /\
      _Block._stride b = 1.
Proof.
  destruct (_BlockGroup.__init__ (T := ZTorch) 3 2 4 2 tt) as [g|e] eqn:E;
    [|vm_compute in E; discriminate E].
  exists g. split; [reflexivity|].
  exact (@BlockGroup_later_blocks_plain Z ZScalar ZTorch 3 2 4 2 tt g E).
Defined.

Lemma BlockGroup_without_blocks_witness :
  -1 <= 0 /\
  _BlockGroup.__init__ (T := ZTorch) (-1) 16 32 2 tt = Ok (_BlockGroup.mk []) /\
  forall x : tensor4 Z,
    _BlockGroup.forward x (_BlockGroup.mk []) = (_BlockGroup.mk [], [], Ok x).
Proof.
  assert (H : -1 <= 0) by lia.
  split; [exact H|].
  exact (@BlockGroup_without_blocks Z ZScalar ZTorch (-1) 16 32 2 tt H).
Defined.

Lemma make_layer_has_a_block_witness :
  0 <= 1 /\
  DMPreActResNet._make_layer (T := ZTorch) 2 4 0 2 tt
  = rbind (_PreActBlock.__init__ (and_or true 2 4) 4 2 tt)
          (fun b => Ok [b]).
Proof.
  assert (H : 0 <= 1) by lia.
  split; [exact H|].
  exact (proj2 (@make_layer_has_a_block Z ZTorch 2 4 0 2 tt) H).
Defined.

Lemma PreActBlock_forward_unsupported_stride_witness :
  _PreActBlock.__init__ (T := ZTorch) 2 2 3 tt = Ok zpreact_stride3 /\
  _PreActBlock._stride zpreact_stride3 <> 1 /\
  _PreActBlock._stride zpreact_stride3 <> 2 /\
  is_ok (snd (_PreActBlock.forward x_1244 zpreact_stride3)) = false.
Proof.
  split; [reflexivity|].
  assert (H1 : _PreActBlock._stride zpreact_stride3 <> 1) by (cbn; lia).
  assert (H2 : _PreActBlock._stride zpreact_stride3 <> 2) by (cbn; lia).
  split; [exact H1|]. split; [exact H2|].
  exact (@PreActBlock_forward_unsupported_stride Z ZScalar ZTorch
           zpreact_stride3 x_1244 H1 H2).
Defined.

Lemma DMWideResNet_init_meansparse_fresh_witness :
  DMWideResNet.__init__ 10 10 1 tt [0; 0; 0] [1; 1; 1] 0 3 = Ok znet /\
  0 <= 1 /\
  DMWideResNet.num_channels znet = 64 * 1 /\
  DMWideResNet.padding znet = 0 /\
  wrn_blocks znet = (3 * Z.to_nat ((10 - 4) / 6))%nat /\
  length (wrn_meansparse znet) = (9 * Z.to_nat ((10 - 4) / 6) + 1)%nat /\
  Forall is_fresh (wrn_meansparse znet).
Proof.
  assert (E : DMWideResNet.__init__ 10 10 1 tt [0; 0; 0] [1; 1; 1] 0 3
              = Ok znet) by (vm_compute; reflexivity).
  split; [exact E|].
  exact (@DMWideResNet_init_meansparse_fresh Z ZScalar ZTorch
           10 10 1 tt [0; 0; 0] [1; 1; 1] 0 3 znet E).
Defined.

Lemma znet_calibration_off : Forall calibration_off (wrn_meansparse znet).
Proof. repeat constructor. Defined.

Lemma DMWideResNet_forward_keeps_meansparse_witness :
  Forall calibration_off (wrn_meansparse znet) /\
  wrn_meansparse (fst (fst (DMWideResNet.forward x_image znet)))
  = wrn_meansparse znet.
Proof.
  split; [exact znet_calibration_off|].
  exact (@DMWideResNet_forward_keeps_meansparse Z ZScalar ZTorch znet x_image
           znet_calibration_off).
Defined.

Lemma DMWideResNet_forward_meansparse_calls_witness :
  exists m' l y,
    DMWideResNet.forward x_image znet = (m', l, Ok y) /\
    calls_of MeanSparseC l = (3 * wrn_blocks znet + 1)%nat.
Proof.
  destruct (DMWideResNet.forward x_image znet) as [[m' l] [y|e]] eqn:E;
    [|vm_compute in E; discriminate E].
  exists m', l, y. split; [reflexivity|].
  exact (@DMWideResNet_forward_meansparse_calls Z ZScalar ZTorch
           znet m' x_image y l E).
Defined.

Lemma forward_rejects_channel_mismatch_witness :
  dimC x_1244 <> length (DMWideResNet.mean znet) /\
  dimC x_1244 <> 1%nat /\
  length (DMWideResNet.mean znet) <> 1%nat /\
  DMWideResNet.forward x_1244 znet = (znet, [], Raise RuntimeError).
Proof.
  assert (H1 : dimC x_1244 <> length (DMWideResNet.mean znet))
    by (cbn; lia).
  assert (H2 : dimC x_1244 <> 1%nat) by (cbn; lia).
  assert (H3 : length (DMWideResNet.mean znet) <> 1%nat) by (cbn; lia).
  split; [exact H1|]. split; [exact H2|]. split; [exact H3|].
  exact (proj1 (@forward_rejects_channel_mismatch Z ZScalar ZTorch zview_flat
                  x_1244) znet H1 H2 H3).
Defined.

(** ** What the block constructors build *)

Section BlockConstructors.
Context {R : Type} {SR : Scalar R} {T : Torch R}.

(** X17.  A block that [_Block.__init__] has built has non-negative widths,
    the stride it was given, a shortcut convolution exactly when [in_planes]
    differs from [out_planes], [meansparse_0] over [in_planes] channels and
    [meansparse_1], [meansparse_2] over [out_planes] channels, all three in
    the state of a fresh MeanSparse. *)
Theorem Block_init_layout
        (in_planes out_planes stride : Z) (fn : ActivationFn) (b : _Block.t R) :
  _Block.__init__ in_planes out_planes stride fn = Ok b ->
  0 <= in_planes /\ 0 <= out_planes /\
  _Block._stride b = stride /\
  _Block.has_shortcut b = negb (in_planes =? out_planes) /\
  shortcut_present b /\
  (_Block.has_shortcut b = false -> _Block.shortcut b = None) /\
  length (MeanSparse.running_mean (_Block.meansparse_0 b))
  = Z.to_nat in_planes /\
  length (MeanSparse.running_mean (_Block.meansparse_1 b))
  = Z.to_nat out_planes /\
  length (MeanSparse.running_mean (_Block.meansparse_2 b))
  = Z.to_nat out_planes /\
  Forall is_fresh (block_meansparse b).
Proof.
  intros Hb.
  destruct (block_init_fields _ _ _ _ Hb) as (Hs & Hst & Hnone & Hsome & Hf).
  revert Hb.
  unfold _Block.__init__, MeanSparse.__init__, MeanSparse.torch_zeros, rbind.
  destruct (BatchNorm2d_new in_planes); [|discriminate].
  destruct (Z.ltb_spec in_planes 0); [discriminate|].
  destruct (Activation_new fn); [|discriminate].
  destruct (Conv2d_new in_planes out_planes 3 stride 0 false); [|discriminate].
  destruct (BatchNorm2d_new out_planes); [|discriminate].
  destruct (Z.ltb_spec out_planes 0); [discriminate|].
  destruct (Conv2d_new out_planes out_planes 3 1 1 false); [|discriminate].
  destruct (negb (in_planes =? out_planes));
    [destruct (Conv2d_new in_planes out_planes 1 stride 0 false);
       [|discriminate]|];
    intros [= <-]; cbn in *; rewrite !repeat_length;
    unfold shortcut_present; cbn; repeat split; auto; discriminate.
Qed.

(** X18.  A block that [_PreActBlock.__init__] has built has the stride it
    was given and a shortcut convolution exactly when the stride is not 1 or
    [in_planes] differs from [out_planes]; without a shortcut convolution its
    stride is 1 and the two widths are equal. *)
Theorem PreActBlock_init_shortcut
        (in_planes out_planes stride : Z) (fn : ActivationFn)
        (pb : _PreActBlock.t R) :
  _PreActBlock.__init__ in_planes out_planes stride fn = Ok pb ->
  _PreActBlock._stride pb = stride /\
  _PreActBlock.has_shortcut pb
  = (negb (stride =? 1) || negb (in_planes =? out_planes))%bool /\
  (_PreActBlock.has_shortcut pb = true -> _PreActBlock.shortcut pb <> None) /\
  (_PreActBlock.has_shortcut pb = false ->
   _PreActBlock.shortcut pb = None /\ stride = 1 /\ in_planes = out_planes).
Proof.
  unfold _PreActBlock.__init__, rbind.
  destruct (BatchNorm2d_new in_planes); [|discriminate].
  destruct (Activation_new fn); [|discriminate].
  destruct (Conv2d_new in_planes out_planes 3 stride 0 false); [|discriminate].
  destruct (BatchNorm2d_new out_planes); [|discriminate].
  destruct (Conv2d_new out_planes out_planes 3 1 1 false); [|discriminate].
  destruct (Z.eqb_spec stride 1), (Z.eqb_spec in_planes out_planes); cbn;
    try (destruct (Conv2d_new in_planes out_planes 3 stride 0 false);
         [|discriminate]);
    intros [= <-]; cbn; repeat split; auto; try discriminate.
Qed.

End BlockConstructors.

Lemma Block_init_layout_witness :
  _Block.__init__ 2 4 2 tt = Ok zblock_shortcut /\
  0 <= 2 /\ 0 <= 4 /\
  _Block._stride zblock_shortcut = 2 /\
  _Block.has_shortcut zblock_shortcut = negb (2 =? 4) /\
  shortcut_present zblock_shortcut /\
  (_Block.has_shortcut zblock_shortcut = false ->
   _Block.shortcut zblock_shortcut = None) /\
  length (MeanSparse.running_mean (_Block.meansparse_0 zblock_shortcut))
  = Z.to_nat 2 /\
  length (MeanSparse.running_mean (_Block.meansparse_1 zblock_shortcut))
  = Z.to_nat 4 /\
  length (MeanSparse.running_mean (_Block.meansparse_2 zblock_shortcut))
  = Z.to_nat 4 /\
  Forall is_fresh (block_meansparse zblock_shortcut).
Proof.
  split; [reflexivity|].
  exact (@Block_init_layout Z ZScalar ZTorch 2 4 2 tt zblock_shortcut eq_refl).
Defined.

Lemma PreActBlock_init_shortcut_witness :
  _PreActBlock.__init__ 2 2 1 tt = Ok zpreact /\
  _PreActBlock._stride zpreact = 1 /\
  _PreActBlock.has_shortcut zpreact
  = (negb (1 =? 1) || negb (2 =? 2))%bool /\
  (_PreActBlock.has_shortcut zpreact = true ->
   _PreActBlock.shortcut zpreact <> None) /\
  (_PreActBlock.has_shortcut zpreact = false ->
   _PreActBlock.shortcut zpreact = None /\ 1 = 1 /\ 2 = 2).
Proof.
  split; [reflexivity|].
  exact (@PreActBlock_init_shortcut Z ZTorch 2 2 1 tt zpreact eq_refl).
Defined.

(** * The blocks and the configuration checks, step by step *)

(** ** _Block.forward, step by step *)

Section BlockSteps.
Context {R : Type} {SR : Scalar R} {T : Torch R}.

Import _Block.

Lemma block_forward_steps (b b' : _Block.t R) (x out : tensor4 R)
      (l : list event) :
  forward x b = (b', l, Ok out) -> block_steps b b' x out.
Proof.
  block_unfold. block_simpl.
  repeat (case_scrutinee; block_simpl); intros H;
    (first [ discriminate H | (injection H; clear H; intros; subst) ]);
    try discriminate;
    unfold block_steps;
    do 16 eexists;
    repeat match goal with
           | |- _ /\ _ => split
           | |- BatchNorm2d_forward _ _ = _ => eassumption
           | |- MeanSparse.forward _ _ = _ => eassumption
           | |- Activation_forward _ _ = _ => eassumption
           | |- Conv2d_forward _ _ = _ => eassumption
           | |- tmap2 _ _ _ = _ => eassumption
           | H : (_ =? 1) = true |- _ \/ _ =>
               left; split; [apply Z.eqb_eq; exact H | reflexivity]
           | H : (_ =? 2) = true |- _ \/ _ =>
               right; split; [apply Z.eqb_eq; exact H | reflexivity]
           | |- _ = _ => reflexivity
           | H : has_shortcut b = true |- context [has_shortcut b] =>
               rewrite H
           | H : has_shortcut b = false |- context [has_shortcut b] =>
               rewrite H
           | |- exists sc, _ = Some sc /\ _ =>
               eexists; split; [eassumption|eassumption]
           end.
Qed.

Lemma block_steps_forward (b b' : _Block.t R) (x out : tensor4 R) :
  block_steps b b' x out -> exists l, forward x b = (b', l, Ok out).
Proof.
  intros (bn0 & a & ms0 & p & pre & v & c0 & bn1 & a1 & ms1 & q & r1 & c1
          & residual & sum & ms2 & H1 & H2 & H3 & Hv & H5 & H6 & H7 & H8 & H9
          & Hres & Hsum & H12 & ->).
  block_unfold. block_simpl.
  destruct (has_shortcut b) eqn:Hs; block_simpl;
    rewrite H1; block_simpl; rewrite H2; block_simpl; rewrite H3; block_simpl;
    rewrite ?Hs; block_simpl;
    (destruct Hv as [[Hst ->]|[Hst ->]]; rewrite Hst; block_simpl;
     cbn [Z.eqb Pos.eqb]; block_simpl;
     rewrite H5; block_simpl; rewrite H6; block_simpl;
     rewrite H7; block_simpl; rewrite H8; block_simpl;
     rewrite H9; block_simpl; rewrite ?Hs; block_simpl).
  all: try (destruct Hres as (sc & Hsc & Hconv); rewrite Hsc, Hconv).
  all: try subst residual.
  all: block_simpl; rewrite Hsum; block_simpl; rewrite H12; block_simpl.
  all: eexists; cbn; f_equal; f_equal;
    unfold set_meansparse_2, set_meansparse_1, set_batchnorm_1,
      set_meansparse_0, set_batchnorm_0; cbn; f_equal; congruence.
Qed.

(** C4 (as amended).  A completed [_Block.forward] has called MeanSparse
    three times, [meansparse_0], [meansparse_1] and [meansparse_2] in that
    order: by the steps of [block_steps], [meansparse_0] on the output of
    [batchnorm_0], [meansparse_1] on the output of [batchnorm_1] and
    [meansparse_2] on the sum of the residual and the output of [conv_1];
    [_PreActBlock.forward] never calls a MeanSparse. *)
Theorem MeanSparse_calls_per_block :
  (forall (b b' : _Block.t R) (x out : tensor4 R) (l : list event),
      forward x b = (b', l, Ok out) ->
      filter (fun e => cls_eqb (kind e) MeanSparseC) l =
      [Call "meansparse_0" MeanSparseC; Call "meansparse_1" MeanSparseC;
       Call "meansparse_2" MeanSparseC] /\
      calls_of MeanSparseC l = 3%nat /\
      block_steps b b' x out) /\
  (forall (pb : _PreActBlock.t R) (x : tensor4 R),
      calls_of MeanSparseC (snd (fst (_PreActBlock.forward x pb))) = 0%nat).
Proof.
  split.
  - intros b b' x out l Hfwd.
    pose proof (block_forward_log _ _ Hfwd) as Hl.
    pose proof Hfwd as Hsteps. apply block_forward_steps in Hsteps.
    subst l. unfold calls_of.
    destruct (has_shortcut b); cbn; auto.
  - intros pb x.
    unfold _PreActBlock.forward, calls_of. run_forward.
    repeat (case_scrutinee; cbn); reflexivity.
Qed.

(** C8.  [_Block.forward] returns [out], leaving the block in state [b'],
    exactly when the steps of [block_steps] can be made: the shortcut
    convolution, when the block has one, reads the pre-activation
    [relu_0(meansparse_0(batchnorm_0(x)))] and not the block input; without
    a shortcut the block input itself is the residual; in both cases the sum
    of the residual and of the output of [conv_1] is what [meansparse_2] is
    applied to, and the output of [meansparse_2] is what is returned. *)
Theorem Block_forward_dataflow (b b' : _Block.t R) (x out : tensor4 R) :
  (exists l, forward x b = (b', l, Ok out)) <-> block_steps b b' x out.
Proof.
  split.
  - intros (l & Hfwd). apply block_forward_steps in Hfwd. exact Hfwd.
  - apply block_steps_forward.
Qed.

(** C6 (as amended).  [_PreActBlock._pad] raises
    [ValueError('Unsupported `stride`.')] for every stride other than 1 and
    2, pads by (1, 1, 1, 1) for stride 1 and by (0, 1, 0, 1) for stride 2.
    [_Block.forward] never returns for a stride other than 1 and 2: it
    raises whatever [batchnorm_0], [meansparse_0] or [relu_0] raises, and
    that [ValueError] once the three have returned.  For stride 1
    (resp. 2), what [conv_0] is called on is the output of [relu_0] padded
    by (1, 1, 1, 1) (resp. (0, 1, 0, 1)): an exception of [conv_0] on that
    tensor is the exception of [forward], and a [forward] that returns has
    got a result from [conv_0] on that tensor. *)
Theorem stride_padding :
  (forall (pb : _PreActBlock.t R) (x : tensor4 R),
      (_PreActBlock._stride pb <> 1 -> _PreActBlock._stride pb <> 2 ->
       _PreActBlock._pad pb x = Raise (ValueError "Unsupported `stride`.")) /\
      (_PreActBlock._stride pb = 1 ->
       _PreActBlock._pad pb x = Ok (F_pad x (1, 1, 1, 1)%nat)) /\
      (_PreActBlock._stride pb = 2 ->
       _PreActBlock._pad pb x = Ok (F_pad x (0, 1, 0, 1)%nat))) /\
  (forall (b : _Block.t R) (x : tensor4 R),
      _stride b <> 1 -> _stride b <> 2 ->
      is_ok (snd (forward x b)) = false /\
      (forall bn0 e,
          BatchNorm2d_forward (batchnorm_0 b) x = (bn0, Raise e) ->
          snd (forward x b) = Raise e) /\
      (forall bn0 a ms0 e,
          BatchNorm2d_forward (batchnorm_0 b) x = (bn0, Ok a) ->
          MeanSparse.forward (meansparse_0 b) a = (ms0, Raise e) ->
          snd (forward x b) = Raise e) /\
      (forall bn0 a ms0 p e,
          BatchNorm2d_forward (batchnorm_0 b) x = (bn0, Ok a) ->
          MeanSparse.forward (meansparse_0 b) a = (ms0, Ok p) ->
          Activation_forward (relu_0 b) p = Raise e ->
          snd (forward x b) = Raise e) /\
      (forall bn0 a ms0 p pre,
          BatchNorm2d_forward (batchnorm_0 b) x = (bn0, Ok a) ->
          MeanSparse.forward (meansparse_0 b) a = (ms0, Ok p) ->
          Activation_forward (relu_0 b) p = Ok pre ->
          snd (forward x b) = Raise (ValueError "Unsupported `stride`."))) /\
  (forall (b : _Block.t R) (x : tensor4 R) bn0 a ms0 p pre e,
      BatchNorm2d_forward (batchnorm_0 b) x = (bn0, Ok a) ->
      MeanSparse.forward (meansparse_0 b) a = (ms0, Ok p) ->
      Activation_forward (relu_0 b) p = Ok pre ->
      (_stride b = 1 ->
       Conv2d_forward (conv_0 b) (F_pad pre (1, 1, 1, 1)%nat) = Raise e ->
       snd (forward x b) = Raise e) /\
      (_stride b = 2 ->
       Conv2d_forward (conv_0 b) (F_pad pre (0, 1, 0, 1)%nat) = Raise e ->
       snd (forward x b) = Raise e)) /\
  (forall (b b' : _Block.t R) (x out : tensor4 R) (l : list event),
      forward x b = (b', l, Ok out) ->
      exists bn0 a ms0 p pre c0,
        BatchNorm2d_forward (batchnorm_0 b) x = (bn0, Ok a) /\
        MeanSparse.forward (meansparse_0 b) a = (ms0, Ok p) /\
        Activation_forward (relu_0 b) p = Ok pre /\
        (_stride b = 1 /\
         Conv2d_forward (conv_0 b) (F_pad pre (1, 1, 1, 1)%nat) = Ok c0 \/
         _stride b = 2 /\
         Conv2d_forward (conv_0 b) (F_pad pre (0, 1, 0, 1)%nat) = Ok c0)).
Proof.
  split; [|split; [|split]].
  - intros pb x. unfold _PreActBlock._pad. repeat split.
    + intros H1 H2.
      destruct (Z.eqb_spec (_PreActBlock._stride pb) 1); [contradiction|].
      destruct (Z.eqb_spec (_PreActBlock._stride pb) 2); [contradiction|].
      reflexivity.
    + intros ->. reflexivity.
    + intros ->. reflexivity.
  - intros b x H1 H2.
    apply Z.eqb_neq in H1, H2.
    split; [|split; [|split; [|split]]].
    + block_unfold. block_simpl.
      repeat (case_scrutinee; block_simpl);
        first [reflexivity | congruence].
    + intros bn0 e Hbn.
      block_unfold. block_simpl.
      destruct (has_shortcut b); block_simpl; now rewrite Hbn.
    + intros bn0 a ms0 e Hbn Hms.
      block_unfold. block_simpl.
      destruct (has_shortcut b); block_simpl;
        rewrite Hbn; block_simpl; now rewrite Hms.
    + intros bn0 a ms0 p e Hbn Hms Hact.
      block_unfold. block_simpl.
      destruct (has_shortcut b); block_simpl;
        rewrite Hbn; block_simpl; rewrite Hms; block_simpl; now rewrite Hact.
    + intros bn0 a ms0 p pre Hbn Hms Hact.
      block_unfold. block_simpl.
      destruct (has_shortcut b) eqn:Hs; block_simpl;
        rewrite Hbn; block_simpl; rewrite Hms; block_simpl; rewrite Hact;
        block_simpl; rewrite ?Hs; block_simpl; rewrite H1, H2; reflexivity.
  - intros b x bn0 a ms0 p pre e Hbn Hms Hact.
    split; intros Hst Hconv;
      block_unfold; block_simpl;
      (destruct (has_shortcut b) eqn:Hs; block_simpl;
       rewrite Hbn; block_simpl; rewrite Hms; block_simpl; rewrite Hact;
       block_simpl; rewrite ?Hs; block_simpl; rewrite Hst;
       cbn [Z.eqb Pos.eqb]; block_simpl; rewrite Hconv; reflexivity).
  - intros b b' x out l Hfwd.
    apply block_forward_steps in Hfwd.
    destruct Hfwd as (bn0 & a & ms0 & p & pre & v & c0 & bn1 & a1 & ms1 & q
                      & r1 & c1 & residual & sum & ms2 & Hbn & Hms & Hact
                      & Hv & Hconv & _).
    exists bn0, a, ms0, p, pre, c0.
    repeat (split; [assumption|]).
    destruct Hv as [[Hst ->]|[Hst ->]]; [left|right]; split; assumption.
Qed.

End BlockSteps.

(** ** Construction succeeds on supported configurations *)

Section Builds.
Context {R : Type} {SR : Scalar R} {T : Torch R}.
Hypothesis builds : framework_builds T.

Lemma mapM_ok {A B : Type} (f : A -> result B) (l : list A) :
  (forall a, In a l -> exists b, f a = Ok b) -> exists bs, mapM f l = Ok bs.
Proof.
  induction l as [|a l IH]; intros H; cbn [mapM].
  - now eexists.
  - destruct (H a (or_introl eq_refl)) as (b & ->).
    destruct IH as (bs & ->); [intros a' Ha'; apply H; now right|].
    now eexists.
Qed.

Lemma and_or_nonneg (c : bool) (a b : Z) :
  0 <= a -> 0 <= b -> 0 <= and_or c a b.
Proof.
  intros Ha Hb. unfold and_or. destruct c; [destruct (a =? 0)|]; assumption.
Qed.

Lemma MeanSparse_init_ok (n : Z) :
  0 <= n -> exists m : MeanSparse.t R, MeanSparse.__init__ n = Ok m.
Proof.
  intros Hn. unfold MeanSparse.__init__, MeanSparse.torch_zeros, rbind.
  destruct (Z.ltb_spec n 0); [lia|]. now eexists.
Qed.

Lemma Block_init_ok (i o s : Z) (fn : ActivationFn) :
  0 <= i -> 0 <= o -> exists b, _Block.__init__ i o s fn = Ok b.
Proof.
  intros Hi Ho. destruct builds as (Hbn & Hconv & Hact & _).
  unfold _Block.__init__, rbind.
  destruct (Hbn i Hi) as (? & ->). destruct (@MeanSparse_init_ok i Hi) as (? & ->).
  destruct (Hact fn) as (? & ->).
  destruct (Hconv i o 3 s 0 false Hi Ho) as (? & ->).
  destruct (Hbn o Ho) as (? & ->). destruct (@MeanSparse_init_ok o Ho) as (? & ->).
  destruct (Hconv o o 3 1 1 false Ho Ho) as (? & ->).
  destruct (negb (i =? o));
    [destruct (Hconv i o 1 s 0 false Hi Ho) as (? & ->)|]; now eexists.
Qed.

Lemma PreActBlock_init_ok (i o s : Z) (fn : ActivationFn) :
  0 <= i -> 0 <= o -> exists b, _PreActBlock.__init__ i o s fn = Ok b.
Proof.
  intros Hi Ho. destruct builds as (Hbn & Hconv & Hact & _).
  unfold _PreActBlock.__init__, rbind.
  destruct (Hbn i Hi) as (? & ->). destruct (Hact fn) as (? & ->).
  destruct (Hconv i o 3 s 0 false Hi Ho) as (? & ->).
  destruct (Hbn o Ho) as (? & ->).
  destruct (Hconv o o 3 1 1 false Ho Ho) as (? & ->).
  destruct (negb (s =? 1) || negb (i =? o)); now eexists.
Qed.

Lemma BlockGroup_init_ok (n i o s : Z) (fn : ActivationFn) :
  0 <= i -> 0 <= o -> exists g, _BlockGroup.__init__ n i o s fn = Ok g.
Proof.
  intros Hi Ho. unfold _BlockGroup.__init__, rbind.
  destruct (@mapM_ok _ _
              (fun k : nat =>
                 _Block.__init__ (and_or (Nat.eqb k 0) i o) o
                                 (and_or (Nat.eqb k 0) s 1) fn)
              (seq 0 (Z.to_nat n))) as (bs & ->).
  - intros k _. apply Block_init_ok; [now apply and_or_nonneg|assumption].
  - now eexists.
Qed.

Lemma make_layer_ok (i o n s : Z) (fn : ActivationFn) :
  0 <= i -> 0 <= o -> exists l, DMPreActResNet._make_layer i o n s fn = Ok l.
Proof.
  intros Hi Ho. unfold DMPreActResNet._make_layer.
  apply mapM_ok. intros [k s'] _.
  apply PreActBlock_init_ok; [now apply and_or_nonneg|assumption].
Qed.

End Builds.

Section ConfigurationChecks.
Context {R : Type} {SR : Scalar R} {T : Torch R}.

(** C7 (as amended).  [DMPreActResNet.__init__] raises
    [ValueError('Unsupported `width`.')] for every width other than 0.  With
    width 0 and a depth other than 18 and 34 it never returns: it raises
    what the two [view]s of the mean and of the standard deviation or the
    first [Conv2d] raise, and [ValueError('Unsupported `depth`.')] once
    these are built.  With width 0, depth 18 or 34, views that exist and a
    framework whose constructors accept non-negative sizes it returns a
    network, and every network it returns has the block counts
    (2, 2, 2, 2) at depth 18 and (3, 4, 6, 3) at depth 34.
    [DMWideResNet.__init__] never returns when [(depth - 4) % 6 != 0]: it
    raises what the two [view]s raise, and fails its assertion once the
    buffers are registered.  When [(depth - 4) % 6 == 0], with views that
    exist and non-negative sizes, it returns a network, and every network it
    returns has [max((depth - 4) // 6, 0)] blocks in each of its three
    groups. *)
Theorem configuration_validated :
  (forall num_classes depth width fn (mean std : list R) padding
          num_input_channels use_cuda,
      width <> 0 ->
      DMPreActResNet.__init__ num_classes depth width fn mean std padding
                              num_input_channels use_cuda
      = Raise (ValueError "Unsupported `width`.")) /\
  (forall num_classes depth width fn (mean std : list R) padding
          num_input_channels use_cuda,
      depth <> 18 -> depth <> 34 ->
      is_ok (DMPreActResNet.__init__ num_classes depth width fn mean std
                                     padding num_input_channels use_cuda)
      = false /\
      (width = 0 ->
       DMPreActResNet.__init__ num_classes depth width fn mean std padding
                               num_input_channels use_cuda
       = (_ <- view_C11 mean num_input_channels ;;
          _ <- view_C11 std num_input_channels ;;
          _ <- Conv2d_new num_input_channels 64 3 1 1 false ;;
          Raise (ValueError "Unsupported `depth`."))%py)) /\
  (forall num_classes depth width fn (mean std : list R) padding
          num_input_channels use_cuda m,
      DMPreActResNet.__init__ num_classes depth width fn mean std padding
                              num_input_channels use_cuda = Ok m ->
      let counts := map (@length _)
                        [DMPreActResNet.layer_0 m; DMPreActResNet.layer_1 m;
                         DMPreActResNet.layer_2 m; DMPreActResNet.layer_3 m] in
      width = 0 /\
      ((depth = 18 /\ counts = [2; 2; 2; 2]%nat) \/
       (depth = 34 /\ counts = [3; 4; 6; 3]%nat))) /\
  (forall num_classes depth fn (mean std : list R) padding
          num_input_channels use_cuda,
      framework_builds T ->
      depth = 18 \/ depth = 34 ->
      is_ok (view_C11 mean num_input_channels) = true ->
      is_ok (view_C11 std num_input_channels) = true ->
      0 <= num_input_channels -> 0 <= num_classes ->
      exists m,
        DMPreActResNet.__init__ num_classes depth 0 fn mean std padding
                                num_input_channels use_cuda = Ok m /\
        map (@length _)
            [DMPreActResNet.layer_0 m; DMPreActResNet.layer_1 m;
             DMPreActResNet.layer_2 m; DMPreActResNet.layer_3 m]
        = if depth =? 18 then [2; 2; 2; 2]%nat else [3; 4; 6; 3]%nat) /\
  (forall num_classes depth width fn (mean std : list R) padding
          num_input_channels,
      (depth - 4) mod 6 <> 0 ->
      is_ok (DMWideResNet.__init__ num_classes depth width fn mean std
                                   padding num_input_channels) = false /\
      DMWideResNet.__init__ num_classes depth width fn mean std padding
                            num_input_channels
      = (_ <- view_C11 mean num_input_channels ;;
         _ <- view_C11 std num_input_channels ;;
         Raise AssertionError)%py) /\
  (forall num_classes depth width fn (mean std : list R) padding
          num_input_channels m,
      DMWideResNet.__init__ num_classes depth width fn mean std padding
                            num_input_channels = Ok m ->
      (depth - 4) mod 6 = 0 /\
      map (fun g => length (_BlockGroup.block g)) (DMWideResNet.layer m)
      = repeat (Z.to_nat (Z.max ((depth - 4) / 6) 0)) 3) /\
  (forall num_classes depth width fn (mean std : list R) padding
          num_input_channels,
      framework_builds T ->
      (depth - 4) mod 6 = 0 ->
      is_ok (view_C11 mean num_input_channels) = true ->
      is_ok (view_C11 std num_input_channels) = true ->
      0 <= width -> 0 <= num_input_channels -> 0 <= num_classes ->
      exists m,
        DMWideResNet.__init__ num_classes depth width fn mean std padding
                              num_input_channels = Ok m /\
        map (fun g => length (_BlockGroup.block g)) (DMWideResNet.layer m)
        = repeat (Z.to_nat (Z.max ((depth - 4) / 6) 0)) 3).
Proof.
  split; [|split; [|split; [|split; [|split; [|split]]]]].
  - intros num_classes depth width fn mean std padding nic use_cuda Hw.
    unfold DMPreActResNet.__init__.
    destruct (Z.eqb_spec width 0); [contradiction|]. reflexivity.
  - intros num_classes depth width fn mean std padding nic use_cuda H18 H34.
    unfold DMPreActResNet.__init__, DMPreActResNet.num_blocks_of, rbind.
    destruct (Z.eqb_spec depth 18); [contradiction|].
    destruct (Z.eqb_spec depth 34); [contradiction|].
    split.
    + repeat (case_scrutinee; cbn; try reflexivity).
    + intros ->. cbn.
      destruct (view_C11 mean nic); [|reflexivity].
      destruct (view_C11 std nic); [|reflexivity].
      destruct (Conv2d_new nic 64 3 1 1 false); reflexivity.
  - intros num_classes depth width fn mean std padding nic use_cuda m.
    unfold DMPreActResNet.__init__, DMPreActResNet.num_blocks_of, rbind.
    destruct (Z.eqb_spec width 0) as [Hw|Hw]; cbn [negb]; [|discriminate].
    destruct (view_C11 mean nic); [|discriminate].
    destruct (view_C11 std nic); [|discriminate].
    destruct (Conv2d_new nic 64 3 1 1 false); [|discriminate].
    destruct (Z.eqb_spec depth 18); [|destruct (Z.eqb_spec depth 34)];
      [| |discriminate];
      (destruct (DMPreActResNet._make_layer 64 64 _ 1 fn) eqn:E0;
         [|discriminate];
       destruct (DMPreActResNet._make_layer 64 128 _ 2 fn) eqn:E1;
         [|discriminate];
       destruct (DMPreActResNet._make_layer 128 256 _ 2 fn) eqn:E2;
         [|discriminate];
       destruct (DMPreActResNet._make_layer 256 512 _ 2 fn) eqn:E3;
         [|discriminate];
       repeat (case_scrutinee; try discriminate);
       intros [= <-]; cbn;
       apply _make_layer_length in E0, E1, E2, E3;
       rewrite E0, E1, E2, E3; auto).
  - intros num_classes depth fn mean std padding nic use_cuda HB Hd Hm Hs
           Hnic Hnc.
    pose proof HB as (Hbn & Hconv & Hact & Hlin).
    unfold DMPreActResNet.__init__, DMPreActResNet.num_blocks_of, rbind.
    cbn [Z.eqb negb].
    destruct (view_C11 mean nic); [|discriminate].
    destruct (view_C11 std nic); [|discriminate].
    destruct (Hconv nic 64 3 1 1 false Hnic ltac:(lia)) as (? & ->).
    destruct (Hbn 512 ltac:(lia)) as (? & Ebn).
    destruct (Hact fn) as (? & Eact).
    destruct (Hlin 512 num_classes ltac:(lia) Hnc) as (? & Elin).
    destruct Hd as [-> | ->]; cbn [Z.eqb Pos.eqb];
      repeat match goal with
             | |- context [DMPreActResNet._make_layer ?i ?o ?n ?s fn] =>
                 let l := fresh "l" in
                 let E := fresh "E" in
                 destruct (@make_layer_ok _ _ HB i o n s fn
                             ltac:(lia) ltac:(lia)) as (l & E);
                 rewrite E; apply _make_layer_length in E
             end;
      rewrite Ebn, Eact, Elin;
      (eexists; split; [reflexivity|]); cbn;
      repeat match goal with
             | H : length _ = _ |- _ => rewrite H; clear H
             end;
      reflexivity.
  - intros num_classes depth width fn mean std padding nic Hd.
    unfold DMWideResNet.__init__, rbind.
    destruct (Z.eqb_spec ((depth - 4) mod 6) 0); [contradiction|].
    split.
    + repeat (case_scrutinee; cbn; try reflexivity).
    + destruct (view_C11 mean nic); [|reflexivity].
      destruct (view_C11 std nic); reflexivity.
  - intros num_classes depth width fn mean std padding nic m.
    unfold DMWideResNet.__init__, rbind.
    destruct (view_C11 mean nic); [|discriminate].
    destruct (view_C11 std nic); [|discriminate].
    destruct (Z.eqb_spec ((depth - 4) mod 6) 0); [|discriminate].
    destruct (Conv2d_new nic 16 3 1 1 false); [|discriminate].
    destruct (_BlockGroup.__init__ _ 16 _ 1 fn) eqn:E0; [|discriminate].
    destruct (_BlockGroup.__init__ _ (16 * width) _ 2 fn) eqn:E1;
      [|discriminate].
    destruct (_BlockGroup.__init__ _ (32 * width) _ 2 fn) eqn:E2;
      [|discriminate].
    repeat (case_scrutinee; try discriminate).
    intros [= <-]. cbn.
    apply _BlockGroup_init_length in E0, E1, E2.
    rewrite E0, E1, E2.
    assert (Hmax : forall k, Z.to_nat (Z.max k 0) = Z.to_nat k)
      by (intros k; lia).
    rewrite Hmax. auto.
  - intros num_classes depth width fn mean std padding nic HB Hd Hm Hs
           Hw Hnic Hnc.
    pose proof HB as (Hbn & Hconv & Hact & Hlin).
    unfold DMWideResNet.__init__, rbind.
    destruct (view_C11 mean nic); [|discriminate].
    destruct (view_C11 std nic); [|discriminate].
    rewrite Hd. cbn [Z.eqb].
    destruct (Hconv nic 16 3 1 1 false Hnic ltac:(lia)) as (? & ->).
    destruct (@BlockGroup_init_ok _ _ _ HB ((depth - 4) / 6) 16 (16 * width)
                1 fn ltac:(lia) ltac:(lia)) as (g0 & E0).
    destruct (@BlockGroup_init_ok _ _ _ HB ((depth - 4) / 6) (16 * width)
                (32 * width) 2 fn ltac:(lia) ltac:(lia)) as (g1 & E1).
    destruct (@BlockGroup_init_ok _ _ _ HB ((depth - 4) / 6) (32 * width)
                (64 * width) 2 fn ltac:(lia) ltac:(lia)) as (g2 & E2).
    rewrite E0, E1, E2.
    destruct (Hbn (64 * width) ltac:(lia)) as (? & ->).
    destruct (@MeanSparse_init_ok _ _ (64 * width) ltac:(lia)) as (? & ->).
    destruct (Hact fn) as (? & ->).
    destruct (Hlin (64 * width) num_classes ltac:(lia) Hnc) as (? & ->).
    eexists; split; [reflexivity|]. cbn.
    apply _BlockGroup_init_length in E0, E1, E2.
    rewrite E0, E1, E2.
    assert (Hmax : forall k, Z.to_nat (Z.max k 0) = Z.to_nat k)
      by (intros k; lia).
    rewrite Hmax. reflexivity.
Qed.

End ConfigurationChecks.

(** ** On concrete blocks and configurations *)

Lemma MeanSparse_calls_per_block_witness :
  exists b' out l,
    _Block.forward x_1244 zblock_shortcut = (b', l, Ok out) /\
    filter (fun e => cls_eqb (kind e) MeanSparseC) l =
    [Call "meansparse_0" MeanSparseC; Call "meansparse_1" MeanSparseC;
     Call "meansparse_2" MeanSparseC] /\
    calls_of MeanSparseC l = 3%nat /\
    block_steps zblock_shortcut b' x_1244 out.
Proof.
  destruct (_Block.forward x_1244 zblock_shortcut) as [[b' l] [out|e]] eqn:E;
    [|vm_compute in E; discriminate E].
  exists b', out, l. split; [reflexivity|].
  exact (proj1 (@MeanSparse_calls_per_block Z ZScalar ZTorch)
               zblock_shortcut b' x_1244 out l E).
Defined.

Lemma Block_forward_dataflow_witness :
  exists b' out,
    block_steps zblock_shortcut b' x_1244 out /\
    _Block.has_shortcut zblock_shortcut = true.
Proof.
  destruct (_Block.forward x_1244 zblock_shortcut) as [[b' l] [out|e]] eqn:E;
    [|vm_compute in E; discriminate E].
  exists b', out. split; [|reflexivity].
  exact (proj1 (@Block_forward_dataflow Z ZScalar ZTorch
                  zblock_shortcut b' x_1244 out)
               (ex_intro _ l E)).
Defined.

Lemma stride_padding_witness :
  _Block._stride (zblock 3) <> 1 /\ _Block._stride (zblock 3) <> 2 /\
  is_ok (snd (_Block.forward x_1244 (zblock 3))) = false /\
  snd (_Block.forward x_1244 (zblock 3))
  = Raise (ValueError "Unsupported `stride`.") /\
  snd (_Block.forward (full 1 5 4 4 0) (zblock 3)) = Raise RuntimeError /\
  _PreActBlock._stride zpreact = 1 /\
  _PreActBlock._pad zpreact x_1244 = Ok (F_pad x_1244 (1, 1, 1, 1)%nat).
Proof.
  pose proof (@stride_padding Z ZScalar ZTorch) as (Hpad & Hnever & _).
  assert (H1 : _Block._stride (zblock 3) <> 1) by (cbn; lia).
  assert (H2 : _Block._stride (zblock 3) <> 2) by (cbn; lia).
  split; [exact H1|]. split; [exact H2|].
  destruct (Hnever (zblock 3) x_1244 H1 H2) as (Hn & _ & _ & _ & Hval).
  destruct (Hnever (zblock 3) (full 1 5 4 4 0) H1 H2) as (_ & Hbn & _).
  split; [exact Hn|].
  split; [eapply Hval; reflexivity|].
  split; [eapply Hbn; reflexivity|].
  split; [reflexivity|].
  exact (proj1 (proj2 (Hpad zpreact x_1244)) eq_refl).
Defined.

(** C6, as stated, fails: a block of stride 3 whose [batchnorm_0] rejects
    its input raises what [batchnorm_0] raises, not the [ValueError]; the
    stride is looked at only after the pre-activation. *)
Lemma stride_padding_raises_RuntimeError :
  _Block.__init__ (T := ZTorch) 2 2 3 tt = Ok (zblock 3) /\
  snd (_Block.forward (full 1 5 4 4 0) (zblock 3)) = Raise RuntimeError /\
  snd (_Block.forward (full 1 5 4 4 0) (zblock 3))
  <> Raise (ValueError "Unsupported `stride`.").
Proof. vm_compute. repeat split. discriminate. Qed.

Lemma ZTorch_builds : framework_builds ZTorch.
Proof.
  repeat split.
  - intros n Hn. cbn. unfold nonneg_new.
    destruct (Z.ltb_spec n 0); [lia|]. now eexists.
  - intros i o k s p b Hi Ho. cbn.
    destruct (Z.ltb_spec i 0); [lia|]. destruct (Z.ltb_spec o 0); [lia|].
    now eexists.
  - intros fn. now eexists.
  - intros i o _ _. now eexists.
Qed.

Lemma configuration_validated_witness :
  DMPreActResNet.__init__ (T := ZTorch) 10 18 3 tt [1; 1; 1] [1; 1; 1] 0 3 true
  = Raise (ValueError "Unsupported `width`.") /\
  DMPreActResNet.__init__ (T := ZTorch) 10 20 0 tt [1; 1; 1] [1; 1; 1] 0 3 true
  = Raise (ValueError "Unsupported `depth`.") /\
  (exists m,
      DMPreActResNet.__init__ (T := ZTorch) 10 18 0 tt [1; 1; 1] [1; 1; 1]
                              0 3 true = Ok m /\
      map (@length _)
          [DMPreActResNet.layer_0 m; DMPreActResNet.layer_1 m;
           DMPreActResNet.layer_2 m; DMPreActResNet.layer_3 m]
      = [2; 2; 2; 2]%nat) /\
  DMWideResNet.__init__ (T := ZTorch) 10 30 10 tt [1; 1; 1] [1; 1; 1] 0 3
  = Raise AssertionError /\
  (exists m,
      DMWideResNet.__init__ (T := ZTorch) 10 28 10 tt [1; 1; 1] [1; 1; 1] 0 3
      = Ok m /\
      map (fun g => length (_BlockGroup.block g)) (DMWideResNet.layer m)
      = [4; 4; 4]%nat) /\
  (exists m,
      DMWideResNet.__init__ (T := ZTorch) 10 (-2) 10 tt [1; 1; 1] [1; 1; 1] 0 3
      = Ok m /\
      map (fun g => length (_BlockGroup.block g)) (DMWideResNet.layer m)
      = [0; 0; 0]%nat).
Proof.
  pose proof (@configuration_validated Z ZScalar ZTorch)
    as (Hwidth & Hdepth & _ & Hpre & Hassert & _ & Hwrn).
  assert (Hw : 3 <> 0) by lia.
  assert (H18 : 20 <> 18) by lia.
  assert (H34 : 20 <> 34) by lia.
  assert (Hm : (30 - 4) mod 6 <> 0) by (cbn; lia).
  split; [exact (Hwidth 10 18 3 tt [1; 1; 1] [1; 1; 1] 0 3 true Hw)|].
  split; [exact (proj2 (Hdepth 10 20 0 tt [1; 1; 1] [1; 1; 1] 0 3 true H18 H34)
                       eq_refl)|].
  split; [exact (Hpre 10 18 tt [1; 1; 1] [1; 1; 1] 0 3 true ZTorch_builds
                      (or_introl eq_refl) eq_refl eq_refl
                      ltac:(lia) ltac:(lia))|].
  split; [exact (proj2 (Hassert 10 30 10 tt [1; 1; 1] [1; 1; 1] 0 3 Hm))|].
  split.
  - exact (Hwrn 10 28 10 tt [1; 1; 1] [1; 1; 1] 0 3 ZTorch_builds
                eq_refl eq_refl eq_refl ltac:(lia) ltac:(lia) ltac:(lia)).
  - exact (Hwrn 10 (-2) 10 tt [1; 1; 1] [1; 1; 1] 0 3 ZTorch_builds
                eq_refl eq_refl eq_refl ltac:(lia) ltac:(lia) ltac:(lia)).
Defined.

(** C7, as stated, fails: with a mean of two entries for three input
    channels both constructors raise the [RuntimeError] of [view] before
    they look at the depth; and at depth -2, where [(depth - 4) // 6] is -1,
    [DMWideResNet.__init__] returns a network without blocks. *)
Lemma configuration_checked_after_buffers :
  DMPreActResNet.__init__ (T := ZTorch) 10 20 0 tt [1; 1] [1; 1] 0 3 true
  = Raise RuntimeError /\
  DMWideResNet.__init__ (T := ZTorch) 10 30 10 tt [1; 1] [1; 1] 0 3
  = Raise RuntimeError /\
  (-2 - 4) mod 6 = 0 /\ (-2 - 4) / 6 = -1 /\
  match DMWideResNet.__init__ (T := ZTorch) 10 (-2) 10 tt [1; 1; 1] [1; 1; 1]
                              0 3 with
  | Ok m => map (fun g => length (_BlockGroup.block g)) (DMWideResNet.layer m)
            = [0; 0; 0]%nat
  | Raise _ => False
  end.
Proof. vm_compute. repeat split. Qed.
